(** * MonitorApp (web-scraper frontend): a shallow embedding

    The two frontend builds, [src/frontend/src/app.js] and
    [src/static/main.js], share the class [MonitorApp]: a task list kept in
    memory and mirrored to [localStorage], a create-monitor submission that
    posts to [/api/add-monitor], a delete by index, and the rendering of the
    search results.  The backend pipeline (scheduler, status store,
    notifier) is not part of the sources; its diff-and-notify step is
    modelled from the spec in module [Pipeline]. *)

From Stdlib Require Import QArith String Ascii.
From stdpp Require Import base list gmap strings pretty.

Open Scope string_scope.
Open Scope list_scope.
Set Warnings "-register-all".

(** ** JavaScript data values *)
Module Js.

(** The values the frontend reads from JSON responses and builds itself.
    Strings are UTF-8 byte strings; numbers are finite (JSON never yields
    NaN or infinities, and [Date.now() / 1000] is finite) and compared by
    value, as [===] does.  An object is its list of own enumerable
    properties in enumeration order. *)
Inductive jsval : Type :=
| JUndef
| JNull
| JBool (b : bool)
| JNum (q : Q)
| JStr (s : string)
| JArr (xs : list jsval)
| JObj (props : list (string * jsval)).

(** ToBoolean. *)
Definition truthy (v : jsval) : bool :=
  match v with
  | JUndef | JNull => false
  | JBool b => b
  | JNum q => negb (Qeq_bool q 0)
  | JStr s => negb (String.eqb s "")
  | JArr _ | JObj _ => true
  end.

(** [a || b]. *)
Definition js_or (a b : jsval) : jsval := if truthy a then a else b.

(** [v === "s"] for a string literal [s]. *)
Definition is_str (v : jsval) (s : string) : bool :=
  match v with JStr s' => String.eqb s' s | _ => false end.

Fixpoint lookup_prop (k : string) (ps : list (string * jsval)) : jsval :=
  match ps with
  | [] => JUndef
  | (k', v) :: ps' => if String.eqb k k' then v else lookup_prop k ps'
  end.

(** Length of a string in UTF-16 code units, from its UTF-8 bytes: a lead
    byte of a 4-byte sequence is a surrogate pair, continuation bytes count
    nothing. *)
Fixpoint utf16_length (l : list Ascii.ascii) : nat :=
  match l with
  | [] => 0
  | a :: l' =>
      let b := Ascii.N_of_ascii a in
      (if N.ltb b 128 then 1
       else if N.ltb b 192 then 0
       else if N.ltb b 240 then 1
       else 2) + utf16_length l'
  end.

(** [v.k]: [None] is the TypeError of reading a property of [null] or
    [undefined]. *)
Definition get_prop (v : jsval) (k : string) : option jsval :=
  match v with
  | JUndef | JNull => None
  | JObj ps => Some (lookup_prop k ps)
  | JArr xs =>
      Some (if String.eqb k "length" then JNum (inject_Z (Z.of_nat (length xs)))
            else JUndef)
  | JStr s =>
      Some (if String.eqb k "length"
            then JNum (inject_Z (Z.of_nat (utf16_length (list_ascii_of_string s))))
            else JUndef)
  | JBool _ | JNum _ => Some JUndef
  end.

(** [x > 0] for the value of a [length] property.  Numbers compare by
    value, [undefined] is NaN, [null] and [false] are 0, [true] is 1; a
    string operand (only an object's own [length] property can be one) is
    read as NaN. *)
Definition gt_zero (v : jsval) : bool :=
  match v with
  | JNum q => negb (Qle_bool q 0)
  | JBool b => b
  | _ => false
  end.

(** [x === 0]. *)
Definition is_zero (v : jsval) : bool :=
  match v with JNum q => Qeq_bool q 0 | _ => false end.

(** An error object, as [catch] receives it. *)
Record js_error : Type := mk_error { err_name : string; err_message : string }.

Definition type_error : js_error :=
  mk_error "TypeError" "Cannot read properties of null".

(** *** JSON documents *)

(** The document a JSON text denotes; [JSON.parse] of the text
    [JSON.stringify] writes gives back this document. *)
Inductive json : Type :=
| Null
| Bool (b : bool)
| Num (q : Q)
| Str (s : string)
| Arr (xs : list json)
| Obj (props : list (string * json)).

(** [JSON.stringify]: [None] for [undefined]; inside an array
    [undefined] becomes [null]; an object property holding [undefined] is
    left out. *)
Fixpoint stringify (v : jsval) : option json :=
  match v with
  | JUndef => None
  | JNull => Some Null
  | JBool b => Some (Bool b)
  | JNum q => Some (Num q)
  | JStr s => Some (Str s)
  | JArr xs =>
      Some (Arr ((fix go (xs : list jsval) : list json :=
                    match xs with
                    | [] => []
                    | x :: xs' => default Null (stringify x) :: go xs'
                    end) xs))
  | JObj ps =>
      Some (Obj ((fix go (ps : list (string * jsval)) : list (string * json) :=
                    match ps with
                    | [] => []
                    | (k, x) :: ps' =>
                        match stringify x with
                        | Some j => (k, j) :: go ps'
                        | None => go ps'
                        end
                    end) ps))
  end.

(** The text of a top-level array always exists. *)
Definition stringify_array (xs : list jsval) : json :=
  default Null (stringify (JArr xs)).

(** Array-index property names: canonical decimal numerals below
    2^32 - 1. *)
Fixpoint digits_value (acc : N) (l : list Ascii.ascii) : option N :=
  match l with
  | [] => Some acc
  | a :: l' =>
      let d := Ascii.N_of_ascii a in
      if N.leb 48 d && N.leb d 57 then digits_value (acc * 10 + (d - 48))%N l'
      else None
  end.

Definition array_index (k : string) : option N :=
  match list_ascii_of_string k with
  | [] => None
  | a :: l' =>
      if Ascii.eqb a "0"%char && negb (bool_decide (l' = [])) then None
      else match digits_value 0 (a :: l') with
           | Some n => if N.ltb n 4294967295 then Some n else None
           | None => None
           end
  end.

(** CreateDataProperty on an ordinary object, as [JSON.parse] performs
    it: an existing property keeps its place and takes the new value; a new
    array-index property goes among the index properties in ascending
    order, any other new property goes last. *)
Fixpoint place_index (n : N) (k : string) (v : jsval)
    (ps : list (string * jsval)) : list (string * jsval) :=
  match ps with
  | [] => [(k, v)]
  | (k', v') :: ps' =>
      match array_index k' with
      | Some n' => if N.ltb n n' then (k, v) :: ps
                   else (k', v') :: place_index n k v ps'
      | None => (k, v) :: ps
      end
  end.

Fixpoint replace_prop (k : string) (v : jsval)
    (ps : list (string * jsval)) : list (string * jsval) :=
  match ps with
  | [] => []
  | (k', v') :: ps' =>
      if String.eqb k k' then (k', v) :: ps' else (k', v') :: replace_prop k v ps'
  end.

Definition define_prop (ps : list (string * jsval)) (k : string) (v : jsval)
    : list (string * jsval) :=
  if existsb (fun p => String.eqb k p.1) ps then replace_prop k v ps
  else match array_index k with
       | Some n => place_index n k v ps
       | None => ps ++ [(k, v)]
       end.

(** [JSON.parse]. *)
Fixpoint parse (j : json) : jsval :=
  match j with
  | Null => JNull
  | Bool b => JBool b
  | Num q => JNum q
  | Str s => JStr s
  | Arr xs =>
      JArr ((fix go (xs : list json) : list jsval :=
               match xs with
               | [] => []
               | x :: xs' => parse x :: go xs'
               end) xs)
  | Obj ps =>
      JObj ((fix go (acc : list (string * jsval)) (ps : list (string * json))
               : list (string * jsval) :=
               match ps with
               | [] => acc
               | (k, x) :: ps' => go (define_prop acc k (parse x)) ps'
               end) [] ps)
  end.

(** *** [String.prototype.trim] *)

(** Byte length of a WhiteSpace or LineTerminator code point at the head
    of a UTF-8 byte list (0 if there is none): TAB, LF, VT, FF, CR, SPACE,
    U+00A0, U+1680, U+2000..U+200A, U+2028, U+2029, U+202F, U+205F,
    U+3000, U+FEFF. *)
Definition ws3 (b c d : N) : bool :=
  (N.eqb b 225 && N.eqb c 154 && N.eqb d 128)
  || (N.eqb b 226 && N.eqb c 128
      && ((N.leb 128 d && N.leb d 138) || N.eqb d 168 || N.eqb d 169 || N.eqb d 175))
  || (N.eqb b 226 && N.eqb c 129 && N.eqb d 159)
  || (N.eqb b 227 && N.eqb c 128 && N.eqb d 128)
  || (N.eqb b 239 && N.eqb c 187 && N.eqb d 191).

Definition ws1 (b : N) : bool := (N.leb 9 b && N.leb b 13) || N.eqb b 32.

Definition ws_head (l : list N) : nat :=
  match l with
  | b :: r =>
      if ws1 b then 1 else
      match r with
      | c :: r2 =>
          if N.eqb b 194 && N.eqb c 160 then 2 else
          match r2 with
          | d :: _ => if ws3 b c d then 3 else 0
          | [] => 0
          end
      | [] => 0
      end
  | [] => 0
  end.

(** The same, for the last code point, on the reversed byte list. *)
Definition ws_tail (rl : list N) : nat :=
  match rl with
  | b :: r =>
      if ws1 b then 1 else
      match r with
      | c :: r2 =>
          if N.eqb c 194 && N.eqb b 160 then 2 else
          match r2 with
          | d :: _ => if ws3 d c b then 3 else 0
          | [] => 0
          end
      | [] => 0
      end
  | [] => 0
  end.

Fixpoint strip (ws : list N -> nat) (fuel : nat) (l : list Ascii.ascii)
    : list Ascii.ascii :=
  match fuel with
  | 0 => l
  | S f =>
      match ws (map Ascii.N_of_ascii l) with
      | 0 => l
      | n => strip ws f (drop n l)
      end
  end.

Definition trim (s : string) : string :=
  let l := list_ascii_of_string s in
  let l1 := strip ws_head (length l) l in
  string_of_list_ascii (rev (strip ws_tail (length l1) (rev l1))).

End Js.

(** ** The [MonitorApp] state and the methods both builds share *)
Module Ui.
Import Js.

(** The value of the [localStorage] key ['monitorTasks']: either a text
    written by [JSON.stringify] (represented by its document) or any string
    that is not a JSON text. *)
Inductive stored : Type :=
| StoredJson (j : json)
| StoredText (s : string).

Inductive status_kind : Type := StError | StLoading | StSuccess.

(** [app.js] only: the API indicator state, initially ['unknown']. *)
Inductive api_status : Type := ApiUnknown | ApiOnline | ApiOffline.

(** One row of [#monitorList]: the index passed to [removeMonitor], the
    keyword and the site list shown ([task.sites], or the default text). *)
Record monitor_item : Type := mk_item {
  item_index : nat; item_keyword : jsval; item_sites : jsval }.

Inductive monitor_view : Type :=
| MonitorsEmpty
| MonitorItems (items : list monitor_item).

(** One row of [#resultsList]; [res_class] is the [status-*] CSS class. *)
Record result_item : Type := mk_result {
  res_title : jsval; res_url : jsval; res_class : string; res_text : string }.

Inductive results_view : Type :=
| ResultsEmpty
| ResultItems (items : list result_item).

(** A request handed to [fetch]. *)
Record request : Type := mk_request {
  req_endpoint : string; req_method : string; req_body : option json }.

(** The page and the [MonitorApp] fields.  [statusLog] lists the messages
    [showStatus] displayed, oldest first; [button] is [#startBtn]'s
    ([disabled], [textContent]); [sent] lists the requests issued, oldest
    first.  [apiStatus] is a field of [app.js] only; [main.js] never
    touches it. *)
Record app : Type := mk_app {
  monitorTasks : list jsval;
  storage : option stored;
  monitorView : monitor_view;
  statusLog : list (jsval * status_kind);
  button : bool * string;
  keywordField : string;
  resultsView : option results_view;
  apiStatus : api_status;
  sent : list request }.

(** *** A state and exception monad for the method bodies *)

Definition M (A : Type) : Type := app -> (js_error + A) * app.

Definition ret {A} (x : A) : M A := fun s => (inr x, s).
Definition throw {A} (e : js_error) : M A := fun s => (inl e, s).
Definition bind {A B} (m : M A) (k : A -> M B) : M B :=
  fun s => match m s with
           | (inl e, s') => (inl e, s')
           | (inr x, s') => k x s'
           end.
Definition get : M app := fun s => (inr s, s).
Definition modify (f : app -> app) : M unit := fun s => (inr tt, f s).

Notation "x <-- m ;; k" := (bind m (fun x => k))
  (at level 100, m at next level, right associativity).
Notation "m ;;; k" := (bind m (fun _ => k))
  (at level 100, right associativity).

(** [try { m } catch (e) { h(e) }]. *)
Definition try_catch {A} (m : M A) (h : js_error -> M A) : M A :=
  fun s => match m s with
           | (inl e, s') => h e s'
           | r => r
           end.

(** [try { m } finally { f }]: the outcome of [m], unless [f] throws. *)
Definition try_finally (m : M unit) (f : M unit) : M unit :=
  fun s => match m s with
           | (r, s') => match f s' with
                        | (inl e, s'') => (inl e, s'')
                        | (inr _, s'') => (r, s'')
                        end
           end.

(** [v.k] inside a method: a TypeError on [null] or [undefined]. *)
Definition prop (v : jsval) (k : string) : M jsval :=
  match get_prop v k with
  | Some x => ret x
  | None => throw type_error
  end.

Definition run {A} (m : M A) (s : app) : app := snd (m s).

(** *** Field updates *)

Definition set_tasks (ts : list jsval) (a : app) : app :=
  mk_app ts a.(storage) a.(monitorView) a.(statusLog) a.(button) a.(keywordField)
    a.(resultsView) a.(apiStatus) a.(sent).
Definition set_storage (st : option stored) (a : app) : app :=
  mk_app a.(monitorTasks) st a.(monitorView) a.(statusLog) a.(button)
    a.(keywordField) a.(resultsView) a.(apiStatus) a.(sent).
Definition set_view (v : monitor_view) (a : app) : app :=
  mk_app a.(monitorTasks) a.(storage) v a.(statusLog) a.(button) a.(keywordField)
    a.(resultsView) a.(apiStatus) a.(sent).
Definition push_status (m : jsval) (k : status_kind) (a : app) : app :=
  mk_app a.(monitorTasks) a.(storage) a.(monitorView) (a.(statusLog) ++ [(m, k)])
    a.(button) a.(keywordField) a.(resultsView) a.(apiStatus) a.(sent).
Definition set_button (b : bool * string) (a : app) : app :=
  mk_app a.(monitorTasks) a.(storage) a.(monitorView) a.(statusLog) b
    a.(keywordField) a.(resultsView) a.(apiStatus) a.(sent).
Definition set_keyword_field (k : string) (a : app) : app :=
  mk_app a.(monitorTasks) a.(storage) a.(monitorView) a.(statusLog) a.(button) k
    a.(resultsView) a.(apiStatus) a.(sent).
Definition set_results (r : results_view) (a : app) : app :=
  mk_app a.(monitorTasks) a.(storage) a.(monitorView) a.(statusLog) a.(button)
    a.(keywordField) (Some r) a.(apiStatus) a.(sent).
Definition set_api (st : api_status) (a : app) : app :=
  mk_app a.(monitorTasks) a.(storage) a.(monitorView) a.(statusLog) a.(button)
    a.(keywordField) a.(resultsView) st a.(sent).
Definition push_request (r : request) (a : app) : app :=
  mk_app a.(monitorTasks) a.(storage) a.(monitorView) a.(statusLog) a.(button)
    a.(keywordField) a.(resultsView) a.(apiStatus) (a.(sent) ++ [r]).

(** [localStorage.setItem('monitorTasks', JSON.stringify(this.monitorTasks))]. *)
Definition save (a : app) : app :=
  set_storage (Some (StoredJson (stringify_array a.(monitorTasks)))) a.

(** [showStatus(message, type)]. *)
Definition showStatus (m : jsval) (k : status_kind) : M unit :=
  modify (push_status m k).

(** *** [updateMonitorList] *)

(** The template for one task: reads [task.keyword], then [task.sites];
    a truthy [sites] that is not an array has no [join] method. *)
Definition render_task (i : nat) (task : jsval) : option monitor_item :=
  match get_prop task "keyword", get_prop task "sites" with
  | Some kw, Some sites =>
      if truthy sites then
        match sites with
        | JArr _ => Some (mk_item i kw sites)
        | _ => None
        end
      else Some (mk_item i kw (JStr "Amazon · Louis Vuitton"))
  | _, _ => None
  end.

Fixpoint render_tasks (i : nat) (ts : list jsval) : option (list monitor_item) :=
  match ts with
  | [] => Some []
  | t :: ts' =>
      match render_task i t, render_tasks (S i) ts' with
      | Some it, Some its => Some (it :: its)
      | _, _ => None
      end
  end.

Definition updateMonitorList : M unit :=
  a <-- get ;;
  match a.(monitorTasks) with
  | [] => modify (set_view MonitorsEmpty)
  | ts =>
      match render_tasks 0 ts with
      | Some items => modify (set_view (MonitorItems items))
      | None => throw type_error
      end
  end.

(** *** [removeMonitor] *)

(** [Array.prototype.splice(start, 1)]: a negative start counts from the
    end (clamped at 0), a start past the end is clamped to the length. *)
Definition splice1 {A} (xs : list A) (start : Z) : list A :=
  let len := Z.of_nat (length xs) in
  let actual := if Z.ltb start 0 then Z.max (len + start) 0 else Z.min start len in
  delete (Z.to_nat actual) xs.

Definition removeMonitor (index : Z) : M unit :=
  modify (fun a => set_tasks (splice1 a.(monitorTasks) index) a) ;;;
  modify save ;;;
  updateMonitorList.

(** *** [displayResults] *)

(** The status of one result: ['unknown'] / ['检查失败'] unless
    [availability && availability.status === 'success']. *)
Definition result_status (availability : jsval) : option (string * string) :=
  if truthy availability then
    match get_prop availability "status" with
    | Some st =>
        if is_str st "success" then
          match get_prop availability "is_available" with
          | Some ia => Some (if truthy ia then ("available", "有库存")
                             else ("unavailable", "缺货"))
          | None => None
          end
        else Some ("unknown", "检查失败")
    | None => None
    end
  else Some ("unknown", "检查失败").

Definition render_result (r : jsval) : option result_item :=
  match get_prop r "availability" with
  | Some av =>
      match result_status av, get_prop r "title", get_prop r "url" with
      | Some (cls, txt), Some title, Some url =>
          Some (mk_result (js_or title (JStr "商品页面")) url cls txt)
      | _, _, _ => None
      end
  | None => None
  end.

Fixpoint render_results (rs : list jsval) : option (list result_item) :=
  match rs with
  | [] => Some []
  | r :: rs' =>
      match render_result r, render_results rs' with
      | Some it, Some its => Some (it :: its)
      | _, _ => None
      end
  end.

Definition displayResults (results : jsval) : M unit :=
  if negb (truthy results) then modify (set_results ResultsEmpty)
  else
    len <-- prop results "length" ;;
    if is_zero len then modify (set_results ResultsEmpty)
    else
      match results with
      | JArr rs =>
          match render_results rs with
          | Some items => modify (set_results (ResultItems items))
          | None => throw type_error
          end
      | _ => throw type_error
      end.

(** *** [constructor] *)

(** [JSON.parse(localStorage.getItem('monitorTasks') || '[]')]; [None]
    when the constructor does not obtain a task array ([JSON.parse] throws
    on a non-JSON text, or the document is not an array). *)
Definition load_tasks (st : option stored) : option (list jsval) :=
  match st with
  | None => Some []
  | Some (StoredText s) => if String.eqb s "" then Some [] else None
  | Some (StoredJson j) =>
      match parse j with
      | JArr xs => Some xs
      | _ => None
      end
  end.

(** The synchronous part of [new MonitorApp()] that the task list depends
    on: load the stored tasks, then [init()]'s [updateMonitorList()]; a
    throw there makes the constructor throw.  (The event bindings, the API
    indicator and [app.js]'s health check do not touch the task list.) *)
Definition construct (st : option stored) : option app :=
  match load_tasks st with
  | Some ts =>
      match updateMonitorList
              (mk_app ts st MonitorsEmpty [] (false, "开始监控") "" None ApiUnknown [])
      with
      | (inr _, a) => Some a
      | (inl _, _) => None
      end
  | None => None
  end.

(** [m] relates every state to its successor by [R]. *)
Definition preserves (R : app -> app -> Prop) {A} (m : M A) : Prop :=
  forall s, R s (run m s).

(** Neither the task list nor its persisted copy changes. *)
Definition same_tasks (s s' : app) : Prop :=
  s'.(monitorTasks) = s.(monitorTasks) /\ s'.(storage) = s.(storage).

(** Requests are only ever added. *)
Definition sent_grows (s s' : app) : Prop := s.(sent) `prefix_of` s'.(sent).

(** The task list does not change; its persisted copy may. *)
Definition same_list (s s' : app) : Prop := s'.(monitorTasks) = s.(monitorTasks).

(** The persisted copy is the serialization of the task list. *)
Definition synced (a : app) : Prop :=
  a.(storage) = Some (StoredJson (stringify_array a.(monitorTasks))).

Definition keeps_synced (s s' : app) : Prop := synced s -> synced s'.

(** No request is issued. *)
Definition same_sent (s s' : app) : Prop := s'.(sent) = s.(sent).

(** Values that [JSON.stringify] writes without loss: no [undefined] as an
    array element or property value, and every object's properties are in
    the order [JSON.parse] rebuilds them. *)
Definition build_props (ps : list (string * Js.jsval)) : list (string * Js.jsval) :=
  fold_left (fun acc p => let '(k, v) := p in Js.define_prop acc k v) ps [].

Fixpoint clean (v : Js.jsval) : Prop :=
  match v with
  | Js.JUndef => False
  | Js.JArr xs =>
      (fix go (xs : list Js.jsval) : Prop :=
         match xs with [] => True | x :: xs' => clean x /\ go xs' end) xs
  | Js.JObj ps =>
      (fix go (ps : list (string * Js.jsval)) : Prop :=
         match ps with [] => True | (_, x) :: ps' => clean x /\ go ps' end) ps
      /\ build_props ps = ps
  | _ => True
  end.

(** A property that [JSON.stringify] writes: one not holding [undefined]. *)
Definition defined_prop (p : string * Js.jsval) : bool :=
  match p.2 with Js.JUndef => false | _ => true end.

(** A task as it comes back from [JSON.parse(JSON.stringify(...))] when
    its only loss is its [undefined] properties. *)
Definition drop_undefined (t : Js.jsval) : Js.jsval :=
  match t with
  | Js.JObj ps => Js.JObj (List.filter defined_prop ps)
  | _ => t
  end.

(** A task whose properties are each [undefined] or clean, the others in
    the order [JSON.parse] rebuilds them; any other task is clean. *)
Definition storable (t : Js.jsval) : Prop :=
  match t with
  | Js.JObj ps =>
      Forall (fun p => p.2 = Js.JUndef \/ clean p.2) ps
      /\ build_props (List.filter defined_prop ps) = List.filter defined_prop ps
  | _ => clean t
  end.

(** A check that succeeded: [availability && availability.status === 'success']. *)
Definition check_succeeded (av : Js.jsval) : bool :=
  Js.truthy av &&
  match Js.get_prop av "status" with Some st => Js.is_str st "success" | None => false end.

Definition is_available_of (av : Js.jsval) : Js.jsval :=
  default Js.JUndef (Js.get_prop av "is_available").

(** A page with no task and no stored value. *)
Definition fresh_app : app :=
  mk_app [] None MonitorsEmpty [] (false, "开始监控") "" None ApiUnknown [].

(** Submissions run one after the other. *)
Fixpoint run_all {X} (step : X -> M unit) (xs : list X) (a : app) : app :=
  match xs with
  | [] => a
  | x :: xs' => run_all step xs' (run (step x) a)
  end.

Fixpoint all_ok {X} (step : X -> M unit) (ok : X -> app -> bool)
    (xs : list X) (a : app) : bool :=
  match xs with
  | [] => true
  | x :: xs' => ok x a && all_ok step ok xs' (run (step x) a)
  end.

(** The status a rendered result shows, in terms of its [availability]. *)
Definition shows_status (r : jsval) (it : result_item) : Prop :=
  exists av, get_prop r "availability" = Some av /\
    if check_succeeded av then
      if truthy (is_available_of av)
      then it.(res_class) = "available" /\ it.(res_text) = "有库存"
      else it.(res_class) = "unavailable" /\ it.(res_text) = "缺货"
    else it.(res_class) = "unknown" /\ it.(res_text) = "检查失败".

(** A value a template literal, [join] or [*] converts without throwing:
    converting an object calls its [toString], and a JSON object with an
    own [toString] property (never callable) makes that a TypeError; an
    array converts through [join], element by element. *)
Fixpoint plain (v : jsval) : Prop :=
  match v with
  | JArr xs =>
      (fix go (xs : list jsval) : Prop :=
         match xs with [] => True | x :: xs' => plain x /\ go xs' end) xs
  | JObj ps => ~ In "toString" (map fst ps)
  | _ => True
  end.

(** A stored task the [updateMonitorList] template renders: not [null] or
    [undefined], its [sites], when truthy, an array (the only value with
    [join] here), and its [keyword], [sites] and [timestamp] convertible. *)
Definition task_renders (t : jsval) : Prop :=
  t <> JUndef /\ t <> JNull /\
  (forall v, get_prop t "sites" = Some v -> truthy v = true ->
     exists xs, v = JArr xs /\ plain v) /\
  (forall v, get_prop t "keyword" = Some v -> plain v) /\
  (forall v, get_prop t "timestamp" = Some v -> plain v).

(** A result [displayResults] renders: not [null] or [undefined], with a
    convertible [title] and [url]. *)
Definition result_renders (r : jsval) : Prop :=
  r <> JUndef /\ r <> JNull /\
  (forall v, get_prop r "title" = Some v -> plain v) /\
  (forall v, get_prop r "url" = Some v -> plain v).

(** A stored task the template throws on. *)
Definition task_breaks (t : jsval) : Prop :=
  t = JUndef \/ t = JNull \/
  exists v, get_prop t "sites" = Some v /\ truthy v = true /\ forall xs, v <> JArr xs.

(** The row shown for a task: its [keyword], and its [sites] or the
    default text. *)
Definition shows_task (t : jsval) (it : monitor_item) : Prop :=
  exists kw sites, get_prop t "keyword" = Some kw /\ get_prop t "sites" = Some sites
    /\ it.(item_keyword) = kw
    /\ it.(item_sites) = (if truthy sites then sites else JStr "Amazon · Louis Vuitton").

(** The link shown for a result: its [title] or ['商品页面'], and its [url]. *)
Definition shows_result (r : jsval) (it : result_item) : Prop :=
  exists title url, get_prop r "title" = Some title /\ get_prop r "url" = Some url
    /\ it.(res_title) = js_or title (JStr "商品页面") /\ it.(res_url) = url.

End Ui.

(** [s.includes(sub)]. *)
Definition includes (s sub : string) : bool :=
  match String.index 0 sub s with Some _ => true | None => false end.

(** The request body of [/api/add-monitor], identical in both builds. *)
Definition add_monitor_body (keyword email : string) (sites : list string) : Js.jsval :=
  Js.JObj [("keyword", Js.JStr keyword);
           ("target_sites", Js.JArr (map Js.JStr sites));
           ("notification_email", Js.js_or (Js.JStr email) Js.JNull)].

Definition add_monitor_request (keyword email : string) (sites : list string)
    : Ui.request :=
  Ui.mk_request "/api/add-monitor" "POST"
    (Js.stringify (add_monitor_body keyword email sites)).

(** The form fields [startMonitoring] reads: [#keyword], [#email] and the
    values of the checked [.site-checkbox] inputs, in document order. *)
Record form : Type := mk_form {
  keyword_input : string; email_input : string; checked_sites : list string }.

(** ** [src/frontend/src/app.js] *)
Module Frontend.
Import Js Ui.

(** *** [apiRequest] *)

(** How the network answers one [fetch], on a discrete clock starting at
    the call (milliseconds): [fetch] rejects at [t]; or the response
    headers arrive at [t] and the body, read by [response.json()], is
    complete at a later time or never; or nothing ever arrives. *)
Inductive body_outcome : Type :=
| BodyJson (v : jsval)
| BodyInvalid (e : js_error).

Inductive body_timing : Type :=
| BodyAt (t : N) (r : body_outcome)
| BodyNever.

Inductive fetch_timing : Type :=
| FetchFailsAt (t : N) (e : js_error)
| HeadersAt (t : N) (ok : bool) (status : Z) (statusText : string)
    (body : body_timing)
| NoAnswer.

(** What an [await this.apiRequest(...)] yields. *)
Inductive api_outcome : Type :=
| ApiResolved (v : jsval)
| ApiRejected (e : js_error).

Inductive settled : Type :=
| SettledAt (t : N) (r : api_outcome)
| NeverSettles.

(** [timeout || window.API_TIMEOUT || 30000%N]; [None] is [null] or
    [undefined], and 0 is falsy. *)
Definition request_timeout (timeout api_timeout : option N) : N :=
  match timeout with
  | Some t => if N.eqb t 0 then
                match api_timeout with
                | Some c => if N.eqb c 0 then 30000%N else c
                | None => 30000%N
                end
              else t
  | None => match api_timeout with
            | Some c => if N.eqb c 0 then 30000%N else c
            | None => 30000%N
            end
  end.

(** The [catch] of [apiRequest]: an [AbortError] becomes
    [new Error('请求超时')], anything else is rethrown. *)
Definition timeout_error : js_error := mk_error "Error" "请求超时".

Definition abort_error : js_error :=
  mk_error "AbortError" "This operation was aborted".

Definition api_catch (e : js_error) : js_error :=
  if String.eqb e.(err_name) "AbortError" then timeout_error else e.

(** [apiRequest(endpoint, options, timeout)]: the timer armed by
    [setTimeout(() => controller.abort(), requestTimeout)] fires at
    [requestTimeout] unless [clearTimeout] ran before, which happens as
    soon as [fetch] settles, before [response.json()] is read.  At equal
    times the timer is taken to fire first. *)
Definition api_request (timeout api_timeout : option N) (net : fetch_timing)
    : settled :=
  let T := request_timeout timeout api_timeout in
  match net with
  | NoAnswer => SettledAt T (ApiRejected (api_catch abort_error))
  | FetchFailsAt t e =>
      if N.ltb t T then SettledAt t (ApiRejected (api_catch e))
      else SettledAt T (ApiRejected (api_catch abort_error))
  | HeadersAt t ok status statusText body =>
      if N.ltb t T then
        if ok then
          match body with
          | BodyAt tb (BodyJson v) => SettledAt (N.max t tb) (ApiResolved v)
          | BodyAt tb (BodyInvalid e) => SettledAt (N.max t tb) (ApiRejected (api_catch e))
          | BodyNever => NeverSettles
          end
        else
          SettledAt t (ApiRejected (api_catch
            (mk_error "Error"
               (String.append "HTTP " (String.append (pretty status)
                  (String.append ": " statusText))))))
      else SettledAt T (ApiRejected (api_catch abort_error))
  end.

Definition await_api (o : api_outcome) : M jsval :=
  match o with
  | ApiResolved v => ret v
  | ApiRejected e => throw e
  end.

(** *** [checkApiStatus] and [updateApiStatus] *)

Definition updateApiStatus (st : api_status) : M unit := modify (set_api st).

Definition checkApiStatus (o : api_outcome) : M bool :=
  modify (push_request (mk_request "/health" "GET" None)) ;;;
  healthy <-- try_catch (response <-- await_api o ;;
                         st <-- prop response "status" ;;
                         ret (is_str st "healthy"))
                        (fun _ => ret false) ;;
  if healthy then updateApiStatus ApiOnline ;;; ret true
  else updateApiStatus ApiOffline ;;; ret false.

(** *** [startMonitoring] *)

(** The outcomes of the [/health] request (made only when [apiStatus] is
    ['offline']) and of the [/api/add-monitor] request, as [apiRequest]
    settles them, and [Date.now() / 1000] when the task is built. *)
Record responses : Type := mk_responses {
  health_response : api_outcome; add_response : api_outcome; now : Q }.

(** The task object saved after a successful response. *)
Definition new_task (keyword email : string) (sites : list string)
    (timestamp task_id : jsval) (now : Q) : jsval :=
  JObj [("keyword", JStr keyword);
        ("sites", JArr (map JStr sites));
        ("email", js_or (JStr email) JNull);
        ("timestamp", js_or timestamp (JNum now));
        ("task_id", task_id)].

(** The [try] block. *)
Definition submit (keyword email : string) (sites : list string)
    (o : api_outcome) (now : Q) : M unit :=
  modify (push_request (add_monitor_request keyword email sites)) ;;;
  response <-- await_api o ;;
  st <-- prop response "status" ;;
  if is_str st "success" then
    summary <-- prop response "summary" ;;
    showStatus (js_or summary (JStr "监控任务已添加")) StSuccess ;;;
    timestamp <-- prop response "timestamp" ;;
    task_id <-- prop response "task_id" ;;
    modify (fun a => set_tasks (new_task keyword email sites timestamp task_id now
                                 :: a.(monitorTasks)) a) ;;;
    modify save ;;;
    updateMonitorList ;;;
    results <-- prop response "results" ;;
    (if truthy results then
       len <-- prop results "length" ;;
       (if gt_zero len then displayResults results else ret tt)
     else ret tt) ;;;
    modify (set_keyword_field "")
  else
    message <-- prop response "message" ;;
    showStatus (js_or message (JStr "监控添加失败")) StError.

(** The [catch] block. *)
Definition on_error (e : js_error) : M unit :=
  if includes e.(err_message) "Failed to fetch" then
    updateApiStatus ApiOffline ;;;
    showStatus (JStr "无法连接到后端服务，请检查网络连接") StError
  else if includes e.(err_message) "请求超时" then
    showStatus (JStr "请求超时，请稍后重试或检查网络连接") StError
  else showStatus (JStr (String.append "错误: " e.(err_message))) StError.

Definition startMonitoring (f : form) (r : responses) : M unit :=
  let keyword := trim f.(keyword_input) in
  let email := trim f.(email_input) in
  if String.eqb keyword "" then showStatus (JStr "请输入商品关键词") StError
  else
    let sites := f.(checked_sites) in
    if Nat.eqb (length sites) 0 then
      showStatus (JStr "请选择至少一个监控网站") StError
    else
      a <-- get ;;
      online <-- (match a.(apiStatus) with
                  | ApiOffline => checkApiStatus r.(health_response)
                  | _ => ret true
                  end) ;;
      if negb online then
        showStatus (JStr "后端API不可用，请检查网络连接或稍后重试") StError
      else
        modify (set_button (true, "搜索中...")) ;;;
        showStatus (JStr "正在搜索商品页面，AI分析相关性，检查库存状态...") StLoading ;;;
        try_finally
          (try_catch (submit keyword email sites r.(add_response) r.(now)) on_error)
          (modify (set_button (false, "开始监控"))).

(** A [/health] answer with [status === 'healthy'], and an
    [/api/add-monitor] answer with [status === 'success']. *)
Definition healthy (o : api_outcome) : bool :=
  match o with
  | ApiResolved v =>
      match get_prop v "status" with Some st => is_str st "healthy" | None => false end
  | ApiRejected _ => false
  end.

Definition succeeded (o : api_outcome) : bool :=
  match o with
  | ApiResolved v =>
      match get_prop v "status" with Some st => is_str st "success" | None => false end
  | ApiRejected _ => false
  end.

(** The add-monitor request is issued: non-empty trimmed keyword, a site
    checked, and the API not marked offline or back online. *)
Definition issues_request (f : form) (r : responses) (a : app) : bool :=
  negb (String.eqb (trim f.(keyword_input)) "")
  && negb (Nat.eqb (length f.(checked_sites)) 0)
  && match a.(apiStatus) with ApiOffline => healthy r.(health_response) | _ => true end.

(** A successful create. *)
Definition creates (x : form * responses) (a : app) : bool :=
  issues_request x.1 x.2 a && succeeded x.2.(add_response).

Definition created_task (x : form * responses) : jsval :=
  let '(f, r) := x in
  match r.(add_response) with
  | ApiResolved v =>
      new_task (trim f.(keyword_input)) (trim f.(email_input)) f.(checked_sites)
        (default JUndef (get_prop v "timestamp")) (default JUndef (get_prop v "task_id"))
        r.(now)
  | ApiRejected _ => JUndef
  end.

Definition start (x : form * responses) : M unit := startMonitoring x.1 x.2.

(** The request [checkApiStatus] issues. *)
Definition health_request : request := mk_request "/health" "GET" None.

(** The state in which [startMonitoring] enters its [try] block, once past
    the API check. *)
Definition after_check (a : app) : app :=
  match a.(apiStatus) with
  | ApiOffline => set_api ApiOnline (push_request health_request a)
  | _ => a
  end.

End Frontend.

(** ** [src/static/main.js] *)
Module Static.
Import Js Ui.

(** What [await fetch('/api/add-monitor', ...)] yields: a rejection, or a
    response with its [ok] flag, [status] and what [response.json()]
    gives. *)
Inductive fetch_outcome : Type :=
| FetchRejected (e : js_error)
| FetchResponse (ok : bool) (status : Z) (body : Frontend.body_outcome).

(** The task object saved after a successful response. *)
Definition new_task (keyword email : string) (sites : list string)
    (timestamp results : jsval) : jsval :=
  JObj [("keyword", JStr keyword);
        ("sites", JArr (map JStr sites));
        ("email", js_or (JStr email) JNull);
        ("timestamp", timestamp);
        ("results", results)].

(** The [try] block. *)
Definition submit (keyword email : string) (sites : list string)
    (o : fetch_outcome) : M unit :=
  modify (push_request (add_monitor_request keyword email sites)) ;;;
  match o with
  | FetchRejected e => throw e
  | FetchResponse ok status body =>
      if negb ok then
        throw (mk_error "Error"
                 (String.append "服务器错误 (" (String.append (pretty status) ")")))
      else
        data <-- (match body with
                  | Frontend.BodyJson v => ret v
                  | Frontend.BodyInvalid e => throw e
                  end) ;;
        st <-- prop data "status" ;;
        if is_str st "success" then
          summary <-- prop data "summary" ;;
          showStatus summary StSuccess ;;;
          timestamp <-- prop data "timestamp" ;;
          results <-- prop data "results" ;;
          modify (fun a => set_tasks (new_task keyword email sites timestamp results
                                       :: a.(monitorTasks)) a) ;;;
          modify save ;;;
          updateMonitorList ;;;
          results' <-- prop data "results" ;;
          displayResults results' ;;;
          modify (set_keyword_field "")
        else
          message <-- prop data "message" ;;
          showStatus (js_or message (JStr "监控添加失败")) StError
  end.

(** The [catch] block. *)
Definition on_error (e : js_error) : M unit :=
  showStatus (JStr (String.append "错误: " e.(err_message))) StError.

Definition startMonitoring (f : form) (o : fetch_outcome) : M unit :=
  let keyword := trim f.(keyword_input) in
  let email := trim f.(email_input) in
  if String.eqb keyword "" then showStatus (JStr "请输入商品关键词") StError
  else
    let sites := f.(checked_sites) in
    if Nat.eqb (length sites) 0 then
      showStatus (JStr "请选择至少一个监控网站") StError
    else
      modify (set_button (true, "搜索中...")) ;;;
      showStatus (JStr "正在搜索商品页面，AI分析相关性，检查库存状态...") StLoading ;;;
      try_finally (try_catch (submit keyword email sites o) on_error)
        (modify (set_button (false, "开始监控"))).

(** The add-monitor request is issued. *)
Definition issues_request (f : form) : bool :=
  negb (String.eqb (trim f.(keyword_input)) "")
  && negb (Nat.eqb (length f.(checked_sites)) 0).

(** The response has [ok] and a JSON body with [status === 'success']. *)
Definition succeeded (o : fetch_outcome) : bool :=
  match o with
  | FetchResponse true _ (Frontend.BodyJson v) =>
      match get_prop v "status" with Some st => is_str st "success" | None => false end
  | _ => false
  end.

Definition creates (x : form * fetch_outcome) (a : app) : bool :=
  issues_request x.1 && succeeded x.2.

Definition created_task (x : form * fetch_outcome) : jsval :=
  let '(f, o) := x in
  match o with
  | FetchResponse _ _ (Frontend.BodyJson v) =>
      new_task (trim f.(keyword_input)) (trim f.(email_input)) f.(checked_sites)
        (default JUndef (get_prop v "timestamp")) (default JUndef (get_prop v "results"))
  | _ => JUndef
  end.

Definition start (x : form * fetch_outcome) : M unit := startMonitoring x.1 x.2.

End Static.

(** ** The monitoring pipeline's diff-and-notify step *)
Module Pipeline.

(** Modelled from the spec: the backend ([backend_logic/scheduler.py],
    [monitor_runner.py], [email_service.py], [database.py]) is not among
    the sources.  The tri-state [is_available] of an AvailabilityVerdict. *)
Inductive availability : Type := Available | Unavailable | Unknown.

#[global] Instance availability_eq_dec : EqDecision availability.
Proof. solve_decision. Defined.

(** Modelled from the spec: a MonitorTask, as far as the diff step reads
    it. *)
Record task : Type := mk_task { task_id : nat; notification_email : option string }.

(** Modelled from the spec: a freshly computed verdict for one URL of a
    task's run. *)
Record verdict_check : Type := mk_check {
  chk_task : task; chk_url : string; chk_available : availability }.

Record notification : Type := mk_note {
  note_task : nat; note_url : string; note_old : availability; note_new : availability }.

Record mail : Type := mk_mail { mail_to : string; mail_note : notification }.

(** Modelled from the spec: the Monitor Store's last-known verdict per
    (task_id, url), the Notifier invocations, and the mails handed to the
    relay. *)
Record store : Type := mk_store {
  verdicts : gmap (nat * string) availability;
  invocations : list notification;
  outbox : list mail }.

Definition empty_store : store := mk_store ∅ [] [].

Definition key (c : verdict_check) : nat * string :=
  (c.(chk_task).(task_id), c.(chk_url)).

(** Modelled from the spec (§3, §4.6): compare the new verdict with the
    prior stored one; no prior verdict is the baseline. *)
Definition diff (prior : option availability) (c : verdict_check)
    : option notification :=
  match prior with
  | Some old =>
      if decide (old = c.(chk_available)) then None
      else Some (mk_note c.(chk_task).(task_id) c.(chk_url) old c.(chk_available))
  | None => None
  end.

(** Modelled from the spec (§4.5): the Notifier is a no-op when the task
    has no notification_email. *)
Definition notifier (t : task) (n : notification) : list mail :=
  match t.(notification_email) with
  | Some addr => [mk_mail addr n]
  | None => []
  end.

(** Modelled from the spec (§4.6): get_last_verdict, diff, notify on
    change, then put_verdict. *)
Definition check_step (s : store) (c : verdict_check) : store :=
  let prior := s.(verdicts) !! key c in
  match diff prior c with
  | Some n => mk_store (<[key c := c.(chk_available)]> s.(verdicts))
                (s.(invocations) ++ [n]) (s.(outbox) ++ notifier c.(chk_task) n)
  | None => mk_store (<[key c := c.(chk_available)]> s.(verdicts))
              s.(invocations) s.(outbox)
  end.

Definition run_checks (s : store) (cs : list verdict_check) : store :=
  fold_left check_step cs s.

(** The verdict of the latest check of [k] in a history. *)
Definition last_verdict (cs : list verdict_check) (k : nat * string)
    : option availability :=
  fold_left (fun acc c => if decide (key c = k) then Some c.(chk_available) else acc)
    cs None.

End Pipeline.

(** * Properties *)

(** ** The pipeline's diff-and-notify step *)
(** ** Sample inputs *)
Module Samples.
Import Js Ui.

Definition loading_message : jsval :=
  JStr "正在搜索商品页面，AI分析相关性，检查库存状态...".

(** A form with a padded keyword, no email and one site. *)
Definition form_plain : form := mk_form "  iPhone 15 Pro Max " "" ["amazon.co.jp"].

(** A form with a padded email. *)
Definition form_email : form :=
  mk_form "Speedy 30" " buyer@example " ["amazon.co.jp"; "louisvuitton.com"].

(** [apiRequest] rejecting with the timeout error, for both requests. *)
Definition timed_out : Frontend.responses :=
  Frontend.mk_responses (Frontend.ApiRejected Frontend.timeout_error)
    (Frontend.ApiRejected Frontend.timeout_error) 0.

Definition network_down : Static.fetch_outcome :=
  Static.FetchRejected (mk_error "TypeError" "Failed to fetch").

(** A result whose availability check succeeded without a verdict. *)
Definition null_verdict : jsval :=
  JObj [("status", JStr "success"); ("is_available", JNull)].

Definition result_null_verdict : jsval :=
  JObj [("title", JStr "Speedy 30"); ("url", JStr "https://example.com/p/1");
        ("availability", null_verdict)].

(** A successful [/api/add-monitor] answer. *)
Definition success_body (id : string) : jsval :=
  JObj [("status", JStr "success"); ("summary", JStr "ok");
        ("timestamp", JNum 1700000000); ("task_id", JStr id); ("results", JArr [])].

Definition created_ok (id : string) : Frontend.responses :=
  Frontend.mk_responses (Frontend.ApiRejected Frontend.timeout_error)
    (Frontend.ApiResolved (success_body id)) 0.

(** A task saved from an answer that carries no [task_id]. *)
Definition task_without_id : jsval :=
  Frontend.new_task "iPhone 15 Pro Max" "" ["amazon.co.jp"] (JNum 1700000000) JUndef 0.

Definition task_without_id_reloaded : jsval :=
  JObj [("keyword", JStr "iPhone 15 Pro Max"); ("sites", JArr [JStr "amazon.co.jp"]);
        ("email", JNull); ("timestamp", JNum 1700000000)].

(** A [/health] answer. *)
Definition health_body : jsval := JObj [("status", JStr "healthy")].

End Samples.

Section PipelineFacts.
Import Pipeline.

Lemma run_checks_lookup (s : store) (cs : list verdict_check) (k : nat * string) :
  (run_checks s cs).(verdicts) !! k =
  fold_left (fun acc c => if decide (key c = k) then Some c.(chk_available) else acc)
    cs (s.(verdicts) !! k).
Proof.
  induction cs as [|c cs IH] in s |- *; [done|].
  simpl. rewrite IH. f_equal.
  unfold check_step; destruct (diff _ _); simpl;
    destruct (decide (key c = k)) as [<-|Hne];
    [by rewrite lookup_insert_eq | by rewrite lookup_insert_ne
    |by rewrite lookup_insert_eq | by rewrite lookup_insert_ne].
Qed.

Lemma stored_is_last_verdict (cs : list verdict_check) (k : nat * string) :
  (run_checks empty_store cs).(verdicts) !! k = last_verdict cs k.
Proof.
  rewrite run_checks_lookup. unfold empty_store; cbn [verdicts].
  by rewrite lookup_empty.
Qed.

Lemma app_single_neq {A} (l : list A) (x : A) : l ++ [x] <> l.
Proof. intros H. apply (f_equal length) in H. rewrite length_app in H. simpl in H. lia. Qed.

Lemma check_step_effects (s : store) (c : verdict_check) :
  (check_step s c).(invocations) = s.(invocations) ++ option_list (diff (s.(verdicts) !! key c) c)
  /\ (check_step s c).(outbox) =
     s.(outbox) ++ match diff (s.(verdicts) !! key c) c with
                   | Some n => notifier c.(chk_task) n
                   | None => []
                   end.
Proof. unfold check_step. destruct (diff _ _); simpl; by rewrite ?app_nil_r. Qed.

(** C1 (as claimed, refuted): a task without notification_email whose
    URL goes from available to unavailable gets no mail, although the new
    verdict differs from the stored one. *)
Lemma notify_iff_changed_counterexample :
  let t := mk_task 1 None in
  let cs := [mk_check t "https://www.amazon.co.jp/dp/B0CHX1W1XY" Available] in
  let c := mk_check t "https://www.amazon.co.jp/dp/B0CHX1W1XY" Unavailable in
  last_verdict cs (key c) = Some Available /\ Available <> Unavailable /\
  (check_step (run_checks empty_store cs) c).(outbox)
    = (run_checks empty_store cs).(outbox).
Proof. vm_compute. split; [reflexivity | split; [discriminate | reflexivity]]. Qed.

(** C1 (amended): for every history of checks and every new check of a
    (task, url) pair, the Notifier is invoked exactly when a prior verdict
    is stored for the pair and differs from the new one; a mail goes out
    exactly when, in addition, the task has a notification_email; the
    first check of a pair triggers nothing. *)
Theorem notify_iff_changed (cs : list verdict_check) (c : verdict_check) :
  let s := run_checks empty_store cs in
  let s' := check_step s c in
  (s'.(invocations) <> s.(invocations) <->
     exists old, last_verdict cs (key c) = Some old /\ old <> c.(chk_available))
  /\ (s'.(outbox) <> s.(outbox) <->
     (exists old, last_verdict cs (key c) = Some old /\ old <> c.(chk_available))
     /\ c.(chk_task).(notification_email) <> None)
  /\ (last_verdict cs (key c) = None ->
      s'.(invocations) = s.(invocations) /\ s'.(outbox) = s.(outbox)).
Proof.
  intros s s'. subst s s'.
  destruct (check_step_effects (run_checks empty_store cs) c) as [Hi Ho].
  rewrite Hi, Ho, stored_is_last_verdict.
  destruct (last_verdict cs (key c)) as [old|] eqn:Hl; simpl.
  - destruct (decide (old = c.(chk_available))) as [Heq|Hne]; simpl.
    + rewrite !app_nil_r. split; [|split]; [split; [done|] ..|done].
      * intros (o & [= <-] & Ho'). done.
      * intros [(o & [= <-] & Ho') _]. done.
    + unfold notifier. destruct (notification_email (chk_task c)) as [addr|]; simpl.
      * split; [|split]; [| |done].
        -- split; [intros _; by exists old | intros _; apply app_single_neq].
        -- split; [intros _; split; [by exists old | done] | intros _; apply app_single_neq].
      * rewrite app_nil_r. split; [|split]; [| |done].
        -- split; [intros _; by exists old | intros _; apply app_single_neq].
        -- split; [done | intros [_ H]; done].
  - rewrite !app_nil_r. split; [|split]; [| |done].
    + split; [done | intros (o & H & _); done].
    + split; [done | intros [(o & H & _) _]; done].
Qed.

End PipelineFacts.

(** ** Frame lemmas for the method bodies *)
Section Frames.
Import Js Ui.

Context (R : app -> app -> Prop) `{!Reflexive R} `{!Transitive R}.

Lemma preserves_ret {A} (x : A) : preserves R (ret x).
Proof. intros s. unfold run, ret. simpl. reflexivity. Qed.

Lemma preserves_throw {A} (e : js_error) : preserves R (throw (A:=A) e).
Proof. intros s. unfold run, throw. simpl. reflexivity. Qed.

Lemma preserves_get : preserves R get.
Proof. intros s. unfold run, get. simpl. reflexivity. Qed.

Lemma preserves_modify (f : app -> app) :
  (forall s, R s (f s)) -> preserves R (modify f).
Proof. intros Hf s. unfold run, modify. simpl. apply Hf. Qed.

Lemma preserves_bind {A B} (m : M A) (k : A -> M B) :
  preserves R m -> (forall x, preserves R (k x)) -> preserves R (bind m k).
Proof.
  intros Hm Hk s. specialize (Hm s). unfold run, bind in *.
  destruct (m s) as [[e|x] s'] eqn:E; simpl in *; [done|].
  etransitivity; [exact Hm | apply Hk].
Qed.

Lemma preserves_try_catch {A} (m : M A) (h : js_error -> M A) :
  preserves R m -> (forall e, preserves R (h e)) -> preserves R (try_catch m h).
Proof.
  intros Hm Hh s. specialize (Hm s). unfold run, try_catch in *.
  destruct (m s) as [[e|x] s'] eqn:E; simpl in *; [|done].
  etransitivity; [exact Hm | apply Hh].
Qed.

Lemma preserves_try_finally (m f : M unit) :
  preserves R m -> preserves R f -> preserves R (try_finally m f).
Proof.
  intros Hm Hf s. specialize (Hm s). unfold run, try_finally in *.
  destruct (m s) as [r s'] eqn:E; simpl in *.
  specialize (Hf s'). unfold run in Hf.
  destruct (f s') as [[e|u] s''] eqn:F; simpl in *; etransitivity; eauto.
Qed.

End Frames.

#[global] Instance same_tasks_refl : Reflexive Ui.same_tasks.
Proof. intros s. by split. Qed.
#[global] Instance same_tasks_trans : Transitive Ui.same_tasks.
Proof. intros s1 s2 s3 [H1 H2] [H3 H4]. split; congruence. Qed.
#[global] Instance same_list_refl : Reflexive Ui.same_list.
Proof. intros s. done. Qed.
#[global] Instance same_list_trans : Transitive Ui.same_list.
Proof. intros s1 s2 s3 H1 H2. unfold Ui.same_list in *. congruence. Qed.
#[global] Instance keeps_synced_refl : Reflexive Ui.keeps_synced.
Proof. intros s H. exact H. Qed.
#[global] Instance keeps_synced_trans : Transitive Ui.keeps_synced.
Proof. intros s1 s2 s3 H1 H2 H. auto. Qed.
#[global] Instance same_sent_refl : Reflexive Ui.same_sent.
Proof. intros s. done. Qed.
#[global] Instance same_sent_trans : Transitive Ui.same_sent.
Proof. intros s1 s2 s3 H1 H2. unfold Ui.same_sent in *. congruence. Qed.
#[global] Instance sent_grows_refl : Reflexive Ui.sent_grows.
Proof. intros s. unfold Ui.sent_grows. exists []. by rewrite app_nil_r. Qed.
#[global] Instance sent_grows_trans : Transitive Ui.sent_grows.
Proof.
  intros s1 s2 s3 [l1 H1] [l2 H2]. unfold Ui.sent_grows.
  exists (l1 ++ l2). by rewrite H2, H1, app_assoc.
Qed.

Create HintDb frames.

(** Closing a [modify] step: the update leaves the relation's fields
    alone, or only appends a request. *)
Ltac close_modify :=
  unfold Ui.same_tasks, Ui.sent_grows, Ui.same_list, Ui.keeps_synced, Ui.synced,
    Ui.same_sent; cbn;
  first [ split; reflexivity
        | reflexivity
        | exists []; by rewrite app_nil_r
        | eexists; reflexivity
        | let H := fresh in intros H; exact H ].

(** Steps a relation needs beyond the generic ones; none by default. *)
Ltac frame_extra := fail.

Ltac frame :=
  repeat (cbv zeta;
          first [ match goal with
                  | |- Reflexive _ => typeclasses eauto
                  | |- Transitive _ => typeclasses eauto
                  | |- forall _, _ => intro
                  end
                | frame_extra
                | solve [eauto with frames]
                | apply preserves_bind
                | apply preserves_try_catch
                | apply preserves_try_finally
                | apply preserves_ret
                | apply preserves_throw
                | apply preserves_get
                | apply preserves_modify; intros ?; close_modify
                | progress case_match ]).

Section FrameFacts.
Import Js Ui.

Lemma showStatus_tasks m k : preserves same_tasks (showStatus m k).
Proof. unfold showStatus. frame. Qed.
Lemma showStatus_sent m k : preserves sent_grows (showStatus m k).
Proof. unfold showStatus. frame. Qed.
Lemma prop_tasks v k : preserves same_tasks (prop v k).
Proof. unfold prop. frame. Qed.
Lemma prop_sent v k : preserves sent_grows (prop v k).
Proof. unfold prop. frame. Qed.
#[local] Hint Resolve showStatus_tasks showStatus_sent prop_tasks prop_sent : frames.

Lemma updateMonitorList_tasks : preserves same_tasks updateMonitorList.
Proof. unfold updateMonitorList. frame. Qed.
Lemma updateMonitorList_sent : preserves sent_grows updateMonitorList.
Proof. unfold updateMonitorList. frame. Qed.
Lemma displayResults_tasks v : preserves same_tasks (displayResults v).
Proof. unfold displayResults. frame. Qed.
Lemma displayResults_sent v : preserves sent_grows (displayResults v).
Proof. unfold displayResults. frame. Qed.
Lemma frontend_on_error_tasks e : preserves same_tasks (Frontend.on_error e).
Proof. unfold Frontend.on_error, Frontend.updateApiStatus. frame. Qed.
Lemma frontend_on_error_sent e : preserves sent_grows (Frontend.on_error e).
Proof. unfold Frontend.on_error, Frontend.updateApiStatus. frame. Qed.
Lemma static_on_error_tasks e : preserves same_tasks (Static.on_error e).
Proof. unfold Static.on_error. frame. Qed.
Lemma static_on_error_sent e : preserves sent_grows (Static.on_error e).
Proof. unfold Static.on_error. frame. Qed.
Lemma await_api_tasks o : preserves same_tasks (Frontend.await_api o).
Proof. unfold Frontend.await_api. frame. Qed.
Lemma await_api_sent o : preserves sent_grows (Frontend.await_api o).
Proof. unfold Frontend.await_api. frame. Qed.
Lemma checkApiStatus_tasks o : preserves same_tasks (Frontend.checkApiStatus o).
Proof.
  unfold Frontend.checkApiStatus, Frontend.updateApiStatus.
  frame; eauto using await_api_tasks with frames.
Qed.
Lemma checkApiStatus_sent o : preserves sent_grows (Frontend.checkApiStatus o).
Proof.
  unfold Frontend.checkApiStatus, Frontend.updateApiStatus.
  frame; eauto using await_api_sent with frames.
Qed.

End FrameFacts.

#[global] Hint Resolve showStatus_tasks showStatus_sent prop_tasks prop_sent
  updateMonitorList_tasks updateMonitorList_sent displayResults_tasks
  displayResults_sent frontend_on_error_tasks frontend_on_error_sent
  static_on_error_tasks static_on_error_sent await_api_tasks await_api_sent
  checkApiStatus_tasks checkApiStatus_sent : frames.

(** ** [removeMonitor] *)
Section RemoveFacts.
Import Js Ui.

Lemma delete_past_end {A} (xs : list A) (n : nat) : length xs <= n -> delete n xs = xs.
Proof.
  induction xs as [|x xs IH] in n |- *; intros Hn; [done|].
  destruct n as [|n]; simpl in *; [lia|]. f_equal. apply IH. lia.
Qed.

Lemma splice1_in_range {A} (xs : list A) (i : Z) :
  (0 <= i < Z.of_nat (length xs))%Z -> splice1 xs i = delete (Z.to_nat i) xs.
Proof.
  intros Hi. unfold splice1.
  replace (Z.ltb i 0) with false by (symmetry; apply Z.ltb_ge; lia).
  by rewrite Z.min_l by lia.
Qed.

Lemma splice1_past_end {A} (xs : list A) (i : Z) :
  (Z.of_nat (length xs) <= i)%Z -> splice1 xs i = xs.
Proof.
  intros Hi. unfold splice1.
  replace (Z.ltb i 0) with false by (symmetry; apply Z.ltb_ge; lia).
  rewrite Z.min_r by lia. apply delete_past_end. lia.
Qed.

Lemma splice1_negative {A} (xs : list A) (i : Z) :
  (i < 0)%Z -> splice1 xs i = delete (Z.to_nat (Z.max (Z.of_nat (length xs) + i) 0)) xs.
Proof.
  intros Hi. unfold splice1. by replace (Z.ltb i 0) with true by (symmetry; apply Z.ltb_lt; lia).
Qed.

Lemma removeMonitor_effect (i : Z) (a : app) :
  let a' := run (removeMonitor i) a in
  a'.(monitorTasks) = splice1 a.(monitorTasks) i
  /\ a'.(storage) = Some (StoredJson (stringify_array (splice1 a.(monitorTasks) i)))
  /\ a'.(sent) = a.(sent) /\ a'.(statusLog) = a.(statusLog).
Proof.
  unfold removeMonitor, updateMonitorList, run, bind, modify, get. simpl.
  repeat case_match; simplify_eq/=; done.
Qed.

End RemoveFacts.

Section RemoveClaims.
Import Js Ui.

(** C6: for a valid index [i], [removeMonitor(i)] deletes exactly the
    task at [i]: the tasks before [i] stay where they are, the tasks after
    it move down by one in the same order, and local storage holds the
    serialization of the new list. *)
Theorem removeMonitor_valid_index (a : app) (i : Z)
    (Hi : (0 <= i < Z.of_nat (length a.(monitorTasks)))%Z) :
  let a' := run (removeMonitor i) a in
  a'.(monitorTasks) = delete (Z.to_nat i) a.(monitorTasks)
  /\ (forall j, j < Z.to_nat i -> a'.(monitorTasks) !! j = a.(monitorTasks) !! j)
  /\ (forall j, Z.to_nat i <= j -> a'.(monitorTasks) !! j = a.(monitorTasks) !! S j)
  /\ length a'.(monitorTasks) = length a.(monitorTasks) - 1
  /\ a'.(storage) = Some (StoredJson (stringify_array a'.(monitorTasks))).
Proof.
  destruct (removeMonitor_effect i a) as (Ht & Hs & _).
  cbv zeta. rewrite Hs, Ht, splice1_in_range by exact Hi.
  split; [done|]. split; [intros j Hj; by apply list_lookup_delete_lt|].
  split; [intros j Hj; by apply list_lookup_delete_ge|].
  split; [|done]. apply length_delete, lookup_lt_is_Some. lia.
Qed.

Lemma removeMonitor_valid_index_witness :
  let a := mk_app [JObj [("keyword", JStr "iPhone 15 Pro Max")];
                   JObj [("keyword", JStr "Speedy 25")]]
             None MonitorsEmpty [] (false, "开始监控") "" None ApiUnknown [] in
  (0 <= 1 < Z.of_nat (length a.(monitorTasks)))%Z /\
  (run (removeMonitor 1) a).(monitorTasks) = delete (Z.to_nat 1) a.(monitorTasks).
Proof.
  cbv zeta. split; [simpl; lia|].
  refine (proj1 (removeMonitor_valid_index _ 1 _)). simpl. lia.
Defined.

(** C5 (as claimed, refuted): an out-of-range delete is not free of
    effects.  On a page with no stored value, [removeMonitor(0)] writes
    ["[]"] to local storage; and a negative index is not out of range for
    [splice]: [removeMonitor(-1)] removes the last task. *)
Lemma removeMonitor_out_of_range_counterexample :
  (run (removeMonitor 0) fresh_app).(storage) <> fresh_app.(storage)
  /\ (run (removeMonitor (-1))
        (mk_app [JObj [("keyword", JStr "iPhone 15 Pro Max")]]
           None MonitorsEmpty [] (false, "开始监控") "" None ApiUnknown [])).(monitorTasks)
     = [].
Proof. vm_compute. split; [discriminate | reflexivity]. Qed.

(** C5 (amended): for an index at or past the end, [removeMonitor] keeps
    the task list, issues no request and shows no message (there is no
    not-found signal), and overwrites local storage with the serialization
    of the unchanged list; a negative index [i] removes the task at
    [max(length + i, 0)]. *)
Theorem removeMonitor_out_of_range (a : app) (i : Z)
    (Hi : (Z.of_nat (length a.(monitorTasks)) <= i)%Z) :
  let a' := run (removeMonitor i) a in
  a'.(monitorTasks) = a.(monitorTasks)
  /\ a'.(storage) = Some (StoredJson (stringify_array a.(monitorTasks)))
  /\ a'.(sent) = a.(sent) /\ a'.(statusLog) = a.(statusLog)
  /\ (forall j, (j < 0)%Z ->
      (run (removeMonitor j) a).(monitorTasks)
      = delete (Z.to_nat (Z.max (Z.of_nat (length a.(monitorTasks)) + j) 0))
          a.(monitorTasks)).
Proof.
  destruct (removeMonitor_effect i a) as (Ht & Hs & Hr & Hl).
  cbv zeta. rewrite Ht, Hs, splice1_past_end by exact Hi.
  repeat split; try done.
  intros j Hj. destruct (removeMonitor_effect j a) as (Ht' & _).
  rewrite Ht'. by apply splice1_negative.
Qed.

Lemma removeMonitor_out_of_range_witness :
  (Z.of_nat (length fresh_app.(monitorTasks)) <= 0)%Z /\
  (run (removeMonitor 0) fresh_app).(monitorTasks) = fresh_app.(monitorTasks).
Proof.
  split; [simpl; lia|].
  exact (proj1 (removeMonitor_out_of_range fresh_app 0 ltac:(simpl; lia))).
Defined.

End RemoveClaims.

(** ** [startMonitoring] *)
Section StartClaims.
Import Js Ui.

Ltac show_error :=
  unfold run, showStatus, modify; simpl;
  repeat split; eexists; reflexivity.

(** C4: in both builds, a submission whose trimmed keyword is empty or
    with no site checked issues no request at all, leaves the task list
    and its persisted copy alone, and shows exactly one error message. *)
Theorem start_requires_keyword_and_site (f : form) (r : Frontend.responses)
    (o : Static.fetch_outcome) (a : app)
    (H : trim f.(keyword_input) = "" \/ f.(checked_sites) = []) :
  (let a' := run (Frontend.startMonitoring f r) a in
   a'.(sent) = a.(sent) /\ a'.(monitorTasks) = a.(monitorTasks)
   /\ a'.(storage) = a.(storage)
   /\ exists m, a'.(statusLog) = a.(statusLog) ++ [(m, StError)])
  /\ (let a' := run (Static.startMonitoring f o) a in
   a'.(sent) = a.(sent) /\ a'.(monitorTasks) = a.(monitorTasks)
   /\ a'.(storage) = a.(storage)
   /\ exists m, a'.(statusLog) = a.(statusLog) ++ [(m, StError)]).
Proof.
  unfold Frontend.startMonitoring, Static.startMonitoring. cbv zeta.
  destruct (String.eqb (trim (keyword_input f)) "") eqn:Ek.
  - split; show_error.
  - destruct H as [H|H]; [rewrite H in Ek; discriminate|].
    rewrite H. simpl. split; show_error.
Qed.

Lemma start_requires_keyword_and_site_witness :
  let f := mk_form "　 " "user@example.com" ["amazon.co.jp"] in
  (trim f.(keyword_input) = "" \/ f.(checked_sites) = []) /\
  (run (Frontend.startMonitoring f
          (Frontend.mk_responses (Frontend.ApiRejected type_error)
             (Frontend.ApiRejected type_error) 0)) fresh_app).(sent) = [].
Proof.
  cbv zeta. split; [left; vm_compute; reflexivity|].
  refine (proj1 (proj1 (start_requires_keyword_and_site _ _
                          (Static.FetchRejected type_error) fresh_app _))).
  left. vm_compute. reflexivity.
Defined.

End StartClaims.

Section SubmitFacts.
Import Js Ui.

Lemma get_prop_object (v : jsval) (k k' : string) (x : jsval) :
  get_prop v k = Some x -> exists y, get_prop v k' = Some y.
Proof. destruct v; simpl; intros H; try discriminate; eauto. Qed.

(** A failed add-monitor request in [app.js]: the [try]/[catch] pair
    shows one error message and touches neither the tasks nor the
    button. *)
Lemma frontend_submit_failure k e sites (o : Frontend.api_outcome) now (s : app) :
  Frontend.succeeded o = false ->
  let s' := run (try_catch (Frontend.submit k e sites o now) Frontend.on_error) s in
  s'.(monitorTasks) = s.(monitorTasks) /\ s'.(storage) = s.(storage)
  /\ s'.(button) = s.(button)
  /\ exists m, s'.(statusLog) = s.(statusLog) ++ [(m, StError)].
Proof.
  intros Hf. cbv zeta.
  unfold Frontend.submit, Frontend.on_error, Frontend.updateApiStatus, Frontend.await_api,
    try_catch, showStatus, prop, run, bind, ret, throw, modify.
  destruct o as [v|err]; simpl in Hf |- *.
  - destruct (get_prop v "status") as [st|] eqn:Est; simpl.
    + rewrite Hf. destruct (get_prop_object v "status" "message" st Est) as [m ->].
      simpl. repeat split; eexists; reflexivity.
    + repeat case_match; simpl; repeat split; eexists; reflexivity.
  - repeat case_match; simpl; repeat split; eexists; reflexivity.
Qed.

Lemma static_submit_failure k e sites (o : Static.fetch_outcome) (s : app) :
  Static.succeeded o = false ->
  let s' := run (try_catch (Static.submit k e sites o) Static.on_error) s in
  s'.(monitorTasks) = s.(monitorTasks) /\ s'.(storage) = s.(storage)
  /\ s'.(button) = s.(button)
  /\ exists m, s'.(statusLog) = s.(statusLog) ++ [(m, StError)].
Proof.
  intros Hf. cbv zeta.
  unfold Static.submit, Static.on_error, try_catch, showStatus, prop, run, bind, ret,
    throw, modify.
  destruct o as [err|ok status body]; simpl in Hf |- *.
  - repeat split; eexists; reflexivity.
  - destruct ok; simpl; [|repeat split; eexists; reflexivity].
    destruct body as [v|err]; simpl in Hf |- *; [|repeat split; eexists; reflexivity].
    destruct (get_prop v "status") as [st|] eqn:Est; simpl.
    + rewrite Hf. destruct (get_prop_object v "status" "message" st Est) as [m ->].
      simpl. repeat split; eexists; reflexivity.
    + repeat split; eexists; reflexivity.
Qed.

End SubmitFacts.

Section StartShape.
Import Js Ui Samples.

Lemma run_try_finally_modify (m : M unit) (g : app -> app) (s : app) :
  run (try_finally m (modify g)) s = g (run m s).
Proof. unfold run, try_finally, modify. by destruct (m s). Qed.

(** When [app.js] gets past its guards, the button is disabled, the
    loading message shown, the [try]/[catch] pair runs, and the [finally]
    block restores the button. *)
Lemma frontend_start_shape (f : form) (r : Frontend.responses) (a : app) :
  Frontend.issues_request f r a = true ->
  exists a1,
    run (Frontend.startMonitoring f r) a =
      set_button (false, "开始监控")
        (run (try_catch (Frontend.submit (trim f.(keyword_input)) (trim f.(email_input))
                           f.(checked_sites) r.(Frontend.add_response) r.(Frontend.now))
                        Frontend.on_error)
             (push_status loading_message StLoading (set_button (true, "搜索中...") a1)))
    /\ same_tasks a a1 /\ a1.(statusLog) = a.(statusLog) /\ sent_grows a a1.
Proof.
  unfold Frontend.issues_request. intros H.
  apply andb_prop in H as [H Hapi]. apply andb_prop in H as [Hk Hs].
  apply negb_true_iff in Hk, Hs.
  unfold Frontend.startMonitoring. cbv zeta. rewrite Hk, Hs.
  destruct (apiStatus a) eqn:Ea.
  - exists a. unfold run at 1, bind at 1 2, get at 1. rewrite Ea. simpl.
    rewrite <- run_try_finally_modify. unfold run, bind, modify, showStatus. simpl.
    split; [done|]. split; [|split]; reflexivity.
  - exists a. unfold run at 1, bind at 1 2, get at 1. rewrite Ea. simpl.
    rewrite <- run_try_finally_modify. unfold run, bind, modify, showStatus. simpl.
    split; [done|]. split; [|split]; reflexivity.
  - unfold Frontend.healthy in Hapi.
    destruct (Frontend.health_response r) as [v|e] eqn:Eh; [|discriminate].
    destruct (get_prop v "status") as [st|] eqn:Est; [|discriminate].
    exists (set_api ApiOnline (push_request (mk_request "/health" "GET" None) a)).
    unfold run at 1, bind at 1 2, get at 1. rewrite Ea.
    unfold Frontend.checkApiStatus, Frontend.updateApiStatus, Frontend.await_api,
      try_catch, prop.
    unfold bind, ret, modify. simpl. rewrite Est. simpl. rewrite Hapi. simpl.
    rewrite <- run_try_finally_modify. unfold run, bind, modify, showStatus. simpl.
    split; [done|]. split; [split; reflexivity|]. split; [reflexivity|].
    unfold sent_grows. simpl. by eexists.
Qed.

Lemma static_start_shape (f : form) (o : Static.fetch_outcome) (a : app) :
  Static.issues_request f = true ->
  run (Static.startMonitoring f o) a =
    set_button (false, "开始监控")
      (run (try_catch (Static.submit (trim f.(keyword_input)) (trim f.(email_input))
                         f.(checked_sites) o) Static.on_error)
           (push_status loading_message StLoading (set_button (true, "搜索中...") a))).
Proof.
  unfold Static.issues_request. intros H.
  apply andb_prop in H as [Hk Hs]. apply negb_true_iff in Hk, Hs.
  unfold Static.startMonitoring. cbv zeta. rewrite Hk, Hs.
  rewrite <- run_try_finally_modify. unfold run, bind, modify, showStatus. simpl.
  reflexivity.
Qed.

End StartShape.

Section FailureClaims.
Import Js Ui Samples.

(** Claim C8: in both builds, when the add-monitor request is issued and
    it throws, times out or answers with a [status] other than
    ['success'], the task list and its persisted copy are unchanged, the
    loading message is followed by exactly one error message (no success
    message), and the button ends enabled with the label ['开始监控']. *)
Theorem create_failure_atomic (f : form) (r : Frontend.responses)
    (o : Static.fetch_outcome) (a : app) :
  Frontend.issues_request f r a = true ->
  Frontend.succeeded r.(Frontend.add_response) = false ->
  Static.succeeded o = false ->
  (let a' := run (Frontend.startMonitoring f r) a in
   a'.(monitorTasks) = a.(monitorTasks) /\ a'.(storage) = a.(storage)
   /\ a'.(button) = (false, "开始监控")
   /\ exists m, a'.(statusLog) = a.(statusLog) ++ [(loading_message, StLoading); (m, StError)])
  /\
  (let a' := run (Static.startMonitoring f o) a in
   a'.(monitorTasks) = a.(monitorTasks) /\ a'.(storage) = a.(storage)
   /\ a'.(button) = (false, "开始监控")
   /\ exists m, a'.(statusLog) = a.(statusLog) ++ [(loading_message, StLoading); (m, StError)]).
Proof.
  intros Hreq HfF HfS. split; cbv zeta.
  - destruct (frontend_start_shape f r a Hreq) as (a1 & -> & [Ht Hs] & Hl & _).
    edestruct (frontend_submit_failure (trim f.(keyword_input)) (trim f.(email_input))
                 f.(checked_sites) _ r.(Frontend.now)
                 (push_status loading_message StLoading (set_button (true, "搜索中...") a1))
                 HfF) as (Ht' & Hs' & _ & m & Hl').
    cbn [set_button monitorTasks storage button statusLog] in *.
    simpl in *. rewrite Ht', Hs', Hl'. rewrite Ht, Hs, Hl. rewrite <- app_assoc.
    repeat split; eexists; reflexivity.
  - unfold Frontend.issues_request in Hreq.
    apply andb_prop in Hreq as [Hreq _].
    rewrite (static_start_shape f o a Hreq).
    edestruct (static_submit_failure (trim f.(keyword_input)) (trim f.(email_input))
                 f.(checked_sites) o
                 (push_status loading_message StLoading (set_button (true, "搜索中...") a))
                 HfS) as (Ht' & Hs' & _ & m & Hl').
    cbn [set_button monitorTasks storage button statusLog] in *.
    rewrite Ht', Hs', Hl'. simpl. rewrite <- app_assoc.
    repeat split; eexists; reflexivity.
Qed.

(** A submission from a fresh page whose request times out, in both builds. *)
Lemma create_failure_atomic_witness :
  (Frontend.issues_request form_plain timed_out fresh_app = true
   /\ Frontend.succeeded timed_out.(Frontend.add_response) = false
   /\ Static.succeeded network_down = false)
  /\ (run (Frontend.startMonitoring form_plain timed_out) fresh_app).(button)
     = (false, "开始监控").
Proof.
  refine (conj (conj eq_refl (conj eq_refl eq_refl)) _).
  exact (proj1 (proj2 (proj2 (proj1
    (create_failure_atomic form_plain timed_out network_down fresh_app
       ltac:(vm_compute; reflexivity) eq_refl eq_refl))))).
Defined.

End FailureClaims.

Section RequestFacts.
Import Js Ui.

Lemma try_catch_modify_first (R : app -> app -> Prop) `{!Transitive R}
    {A} (g : app -> app) (m : M A) (h : js_error -> M A) (s : app) :
  preserves R m -> (forall e, preserves R (h e)) ->
  R (g s) (run (try_catch (modify g ;;; m) h) s).
Proof.
  intros Hm Hh. specialize (Hm (g s)). unfold run, try_catch, bind, modify in *.
  simpl. destruct (m (g s)) as [[e|x] s'] eqn:E; simpl in *; [|exact Hm].
  etransitivity; [exact Hm | apply Hh].
Qed.

Lemma sent_grows_push (r : request) (s s' : app) :
  sent_grows (push_request r s) s' -> r ∈ s'.(sent).
Proof.
  intros [l Hl]. rewrite Hl. simpl. apply elem_of_app. left.
  apply elem_of_app. right. by apply list_elem_of_singleton.
Qed.

Lemma frontend_submit_sends k e sites o now (s : app) :
  add_monitor_request k e sites
    ∈ (run (try_catch (Frontend.submit k e sites o now) Frontend.on_error) s).(sent).
Proof.
  apply (sent_grows_push _ s). unfold Frontend.submit.
  apply try_catch_modify_first; [typeclasses eauto| |]; frame.
Qed.

Lemma static_submit_sends k e sites o (s : app) :
  add_monitor_request k e sites
    ∈ (run (try_catch (Static.submit k e sites o) Static.on_error) s).(sent).
Proof.
  apply (sent_grows_push _ s). unfold Static.submit.
  apply try_catch_modify_first; [typeclasses eauto| |]; frame.
Qed.

Lemma stringify_strings (sites : list string) :
  stringify (JArr (map JStr sites)) = Some (Arr (map Str sites)).
Proof.
  induction sites as [|x xs IH]; [done|]. simpl in *. by injection IH as ->.
Qed.

(** The body [JSON.stringify] writes for [/api/add-monitor]. *)
Lemma add_monitor_request_body k e sites :
  (add_monitor_request k e sites).(req_body) =
    Some (Obj [("keyword", Str k); ("target_sites", Arr (map Str sites));
               ("notification_email", if String.eqb e "" then Null else Str e)]).
Proof.
  unfold add_monitor_request, add_monitor_body. simpl.
  pose proof (stringify_strings sites) as H. simpl in H. injection H as ->.
  unfold js_or. simpl. by destruct (String.eqb e "").
Qed.

End RequestFacts.


Section RequestClaims.
Import Js Ui Samples.

(** Claim C9: in both builds, a submission that gets past the guards
    sends [/api/add-monitor] a body whose [notification_email] is [null]
    when the trimmed email input is empty and the trimmed input itself
    otherwise; the guards do not read the email, so any email input,
    well-formed or not, lets the same submission through. *)
Theorem create_request_email (f : form) (r : Frontend.responses)
    (o : Static.fetch_outcome) (a : app) :
  Frontend.issues_request f r a = true ->
  let email := trim f.(email_input) in
  let rq := add_monitor_request (trim f.(keyword_input)) email f.(checked_sites) in
  rq.(req_body) =
    Some (Obj [("keyword", Str (trim f.(keyword_input)));
               ("target_sites", Arr (map Str f.(checked_sites)));
               ("notification_email", if String.eqb email "" then Null else Str email)])
  /\ rq ∈ (run (Frontend.startMonitoring f r) a).(sent)
  /\ rq ∈ (run (Static.startMonitoring f o) a).(sent)
  /\ (forall e', Frontend.issues_request (mk_form f.(keyword_input) e' f.(checked_sites)) r a
                 = true
                 /\ Static.issues_request (mk_form f.(keyword_input) e' f.(checked_sites))
                    = true).
Proof.
  intros Hreq. cbv zeta. split; [apply add_monitor_request_body|].
  split; [|split].
  - destruct (frontend_start_shape f r a Hreq) as (a1 & -> & _).
    simpl. apply frontend_submit_sends.
  - pose proof Hreq as H. unfold Frontend.issues_request in H.
    apply andb_prop in H as [H _].
    rewrite (static_start_shape f o a H). simpl. apply static_submit_sends.
  - intros e'. unfold Frontend.issues_request in Hreq |- *. simpl.
    split; [exact Hreq|].
    apply andb_prop in Hreq as [Hreq _]. exact Hreq.
Qed.

(** A padded email input is sent trimmed, in both builds. *)
Lemma create_request_email_witness :
  Frontend.issues_request form_email timed_out fresh_app = true
  /\ (add_monitor_request "Speedy 30" "buyer@example" ["amazon.co.jp"; "louisvuitton.com"])
       ∈ (run (Static.startMonitoring form_email network_down) fresh_app).(sent).
Proof.
  split; [vm_compute; reflexivity|].
  exact (proj1 (proj2 (proj2
    (create_request_email form_email timed_out network_down fresh_app
       ltac:(vm_compute; reflexivity))))).
Defined.

End RequestClaims.

Section ResultFacts.
Import Js Ui.

Lemma render_result_status (r : jsval) (it : result_item) :
  render_result r = Some it -> shows_status r it.
Proof.
  unfold render_result, shows_status. intros H.
  destruct (get_prop r "availability") as [av|] eqn:Eav; [|discriminate].
  exists av. split; [done|].
  unfold result_status, check_succeeded, is_available_of in *.
  destruct (truthy av) eqn:Et; simpl.
  - destruct (get_prop av "status") as [st|] eqn:Est; [|discriminate].
    destruct (is_str st "success") eqn:Es.
    + destruct (get_prop av "is_available") as [ia|] eqn:Eia; [|discriminate].
      simpl. repeat case_match; simplify_eq; auto.
    + repeat case_match; simplify_eq; auto.
  - repeat case_match; simplify_eq; auto.
Qed.

Lemma render_results_status (rs : list jsval) (items : list result_item) :
  render_results rs = Some items -> Forall2 shows_status rs items.
Proof.
  revert items. induction rs as [|r rs IH]; intros items H; simpl in H.
  - injection H as <-. constructor.
  - destruct (render_result r) as [it|] eqn:E1; [|discriminate].
    destruct (render_results rs) as [its|] eqn:E2; [|discriminate].
    injection H as <-. constructor; [by apply render_result_status | by apply IH].
Qed.

Lemma displayResults_items (rs : list jsval) (items : list result_item) (a : app) :
  rs <> [] -> render_results rs = Some items ->
  (run (displayResults (JArr rs)) a).(resultsView) = Some (ResultItems items).
Proof.
  intros Hne H. destruct rs as [|r rs']; [done|].
  unfold displayResults, prop, run, bind, ret, modify. simpl.
  simpl in H. rewrite H. reflexivity.
Qed.

End ResultFacts.

Section ResultClaims.
Import Js Ui Samples.

(** Counterexample to claim C3: a check that succeeded with
    [is_available: null] (neither true nor false) is shown as
    unavailable. *)
Lemma result_status_counterexample :
  check_succeeded null_verdict = true
  /\ is_available_of null_verdict <> JBool true
  /\ is_available_of null_verdict <> JBool false
  /\ (run (displayResults (JArr [result_null_verdict])) fresh_app).(resultsView)
     = Some (ResultItems [mk_result (JStr "Speedy 30") (JStr "https://example.com/p/1")
                           "unavailable" "缺货"]).
Proof. vm_compute. repeat split; discriminate || reflexivity. Qed.

(** Claim C3, as amended: [displayResults] (shared by both builds) shows
    every result of a non-empty list; a failed check (falsy
    [availability], or a [status] other than ['success']) is shown as
    unknown / ['检查失败'], never as available or unavailable; a successful
    check is shown as available when [is_available] is truthy and as
    unavailable otherwise, whatever falsy value it holds. *)
Theorem displayResults_status (rs : list jsval) (items : list result_item) (a : app) :
  rs <> [] -> render_results rs = Some items ->
  (run (displayResults (JArr rs)) a).(resultsView) = Some (ResultItems items)
  /\ Forall2 shows_status rs items.
Proof.
  intros Hne H. split; [by apply displayResults_items | by apply render_results_status].
Qed.

Lemma displayResults_status_witness :
  [result_null_verdict] <> []
  /\ (run (displayResults (JArr [result_null_verdict])) fresh_app).(resultsView)
     = Some (ResultItems [mk_result (JStr "Speedy 30") (JStr "https://example.com/p/1")
                           "unavailable" "缺货"]).
Proof.
  split; [discriminate|].
  exact (proj1 (displayResults_status [result_null_verdict] _ fresh_app
                  ltac:(discriminate) ltac:(vm_compute; reflexivity))).
Defined.

End ResultClaims.

Section CreateFacts.
Import Js Ui.

Lemma preserves_same_list {A} (m : M A) :
  preserves same_tasks m -> preserves same_list m.
Proof. intros H s. apply H. Qed.

#[local] Hint Extern 2 (preserves same_list _) =>
  apply preserves_same_list; solve [eauto with frames] : frames.

Lemma run_try_catch_step {A B} (m1 : M A) (k : A -> M B) (h : js_error -> M B)
    (s : app) (x : A) (s1 : app) :
  m1 s = (inr x, s1) -> run (try_catch (bind m1 k) h) s = run (try_catch (k x) h) s1.
Proof. intros E. unfold run, try_catch, bind. by rewrite E. Qed.

Lemma try_catch_ok_frame (R : app -> app -> Prop) `{!Transitive R}
    {A} (m : M A) (h : js_error -> M A) (s : app) :
  preserves R m -> (forall e, preserves R (h e)) -> R s (run (try_catch m h) s).
Proof.
  intros Hm Hh. specialize (Hm s). unfold run, try_catch in *.
  destruct (m s) as [[e|x] s'] eqn:E; simpl in *; [|exact Hm].
  etransitivity; [exact Hm | apply Hh].
Qed.

Lemma succeeded_object (o : Frontend.api_outcome) :
  Frontend.succeeded o = true ->
  exists ps, o = Frontend.ApiResolved (JObj ps)
             /\ is_str (lookup_prop "status" ps) "success" = true.
Proof.
  destruct o as [v|e]; simpl; [|discriminate].
  destruct v; simpl; try discriminate; eauto.
  all: case_match; discriminate.
Qed.

Lemma static_succeeded_object (o : Static.fetch_outcome) :
  Static.succeeded o = true ->
  exists st ps, o = Static.FetchResponse true st (Frontend.BodyJson (JObj ps))
                /\ is_str (lookup_prop "status" ps) "success" = true.
Proof.
  destruct o as [e|[] st [v|e]]; simpl; try discriminate.
  destruct v; simpl; try discriminate; eauto.
  all: case_match; discriminate.
Qed.

(** A successful add-monitor answer in [app.js]: the new task goes to the
    front of the list, whatever the rest of the [try] block does. *)
Lemma frontend_submit_success k e sites (ps : list (string * jsval)) now (s : app) :
  is_str (lookup_prop "status" ps) "success" = true ->
  (run (try_catch (Frontend.submit k e sites (Frontend.ApiResolved (JObj ps)) now)
         Frontend.on_error) s).(monitorTasks)
  = Frontend.new_task k e sites (lookup_prop "timestamp" ps) (lookup_prop "task_id" ps) now
    :: s.(monitorTasks).
Proof.
  intros Hst. unfold Frontend.submit.
  erewrite run_try_catch_step by reflexivity. cbv beta.
  erewrite run_try_catch_step by reflexivity. cbv beta.
  erewrite run_try_catch_step by reflexivity. cbv beta.
  rewrite Hst.
  do 5 (erewrite run_try_catch_step by reflexivity; cbv beta).
  match goal with
  | |- (run (try_catch ?m ?h) ?s1).(monitorTasks) = _ =>
      change ((run (try_catch m h) s1).(monitorTasks) = s1.(monitorTasks));
      apply (try_catch_ok_frame same_list m h s1)
  end; frame.
Qed.

Lemma static_submit_success k e sites st (ps : list (string * jsval)) (s : app) :
  is_str (lookup_prop "status" ps) "success" = true ->
  (run (try_catch (Static.submit k e sites
                     (Static.FetchResponse true st (Frontend.BodyJson (JObj ps))))
         Static.on_error) s).(monitorTasks)
  = Static.new_task k e sites (lookup_prop "timestamp" ps) (lookup_prop "results" ps)
    :: s.(monitorTasks).
Proof.
  intros Hst. unfold Static.submit.
  erewrite run_try_catch_step by reflexivity. cbv beta iota. simpl negb. cbv iota.
  erewrite run_try_catch_step by reflexivity. cbv beta.
  erewrite run_try_catch_step by reflexivity. cbv beta.
  rewrite Hst.
  do 5 (erewrite run_try_catch_step by reflexivity; cbv beta).
  match goal with
  | |- (run (try_catch ?m ?h) ?s1).(monitorTasks) = _ =>
      change ((run (try_catch m h) s1).(monitorTasks) = s1.(monitorTasks));
      apply (try_catch_ok_frame same_list m h s1)
  end; frame.
Qed.

End CreateFacts.


Section OrderFacts.
Import Js Ui.

Lemma frontend_start_creates (x : form * Frontend.responses) (a : app) :
  Frontend.creates x a = true ->
  (run (Frontend.start x) a).(monitorTasks) = Frontend.created_task x :: a.(monitorTasks).
Proof.
  destruct x as [f r]. unfold Frontend.creates, Frontend.start. simpl.
  intros H. apply andb_prop in H as [Hreq Hs].
  destruct (frontend_start_shape f r a Hreq) as (a1 & -> & [Ht _] & _).
  apply succeeded_object in Hs as (ps & Eo & Hst).
  simpl. rewrite Eo, frontend_submit_success by exact Hst. simpl. rewrite Ht.
  reflexivity.
Qed.

Lemma static_start_creates (x : form * Static.fetch_outcome) (a : app) :
  Static.creates x a = true ->
  (run (Static.start x) a).(monitorTasks) = Static.created_task x :: a.(monitorTasks).
Proof.
  destruct x as [f o]. unfold Static.creates, Static.start. simpl.
  intros H. apply andb_prop in H as [Hreq Hs].
  rewrite (static_start_shape f o a Hreq).
  apply static_succeeded_object in Hs as (st & ps & Eo & Hst).
  simpl. rewrite Eo, static_submit_success by exact Hst. simpl.
  reflexivity.
Qed.

Lemma run_all_pushes {X} (step : X -> M unit) (ok : X -> app -> bool) (g : X -> jsval)
    (xs : list X) (a : app) :
  (forall x a, ok x a = true -> (run (step x) a).(monitorTasks) = g x :: a.(monitorTasks)) ->
  all_ok step ok xs a = true ->
  (run_all step xs a).(monitorTasks) = rev (map g xs) ++ a.(monitorTasks).
Proof.
  intros Hstep. revert a. induction xs as [|x xs IH]; intros a H; simpl in *; [done|].
  apply andb_prop in H as [H1 H2].
  rewrite (IH _ H2), (Hstep _ _ H1), <- app_assoc. reflexivity.
Qed.

(** [updateMonitorList] renders the array in its own order. *)
Lemma render_tasks_order (i : nat) (ts : list jsval) (items : list monitor_item) :
  render_tasks i ts = Some items ->
  Forall2 (fun t it => get_prop t "keyword" = Some it.(item_keyword)) ts items
  /\ map item_index items = seq i (length ts).
Proof.
  revert i items. induction ts as [|t ts IH]; intros i items H; simpl in H.
  - injection H as <-. split; [constructor | reflexivity].
  - destruct (render_task i t) as [it|] eqn:E1; [|discriminate].
    destruct (render_tasks (S i) ts) as [its|] eqn:E2; [|discriminate].
    injection H as <-. destruct (IH _ _ E2) as [HF Hi].
    unfold render_task in E1.
    destruct (get_prop t "keyword") as [kw|] eqn:Ek; [|discriminate].
    destruct (get_prop t "sites") as [st|]; [|discriminate].
    assert (it.(item_keyword) = kw /\ it.(item_index) = i) as [Hk Hn]
      by (repeat case_match; simplify_eq; done).
    split; [constructor; [congruence | exact HF]|]. simpl. by rewrite Hn, Hi.
Qed.

End OrderFacts.

Section OrderClaims.
Import Js Ui Samples.

(** Counterexample to claim C2: after two successful creates from a fresh
    page, the list holds the second task first. *)
Lemma tasks_creation_order_counterexample :
  let xs := [(form_plain, created_ok "t1"); (form_email, created_ok "t2")] in
  all_ok Frontend.start Frontend.creates xs fresh_app = true
  /\ (run_all Frontend.start xs fresh_app).(monitorTasks)
     = [Frontend.created_task (form_email, created_ok "t2");
        Frontend.created_task (form_plain, created_ok "t1")]
  /\ (run_all Frontend.start xs fresh_app).(monitorTasks)
     <> map Frontend.created_task xs.
Proof. vm_compute. split; [reflexivity|]. split; [reflexivity|]. discriminate. Qed.

(** Claim C2, as amended: in both builds, after a sequence of successful
    creates the task list is the created tasks, latest first, followed by
    the tasks there were before; [updateMonitorList] shows the list in
    that array order, row [n] for the task at index [n]. *)
Theorem tasks_newest_first (xs : list (form * Frontend.responses))
    (ys : list (form * Static.fetch_outcome)) (a : app) :
  all_ok Frontend.start Frontend.creates xs a = true ->
  all_ok Static.start Static.creates ys a = true ->
  (run_all Frontend.start xs a).(monitorTasks)
    = rev (map Frontend.created_task xs) ++ a.(monitorTasks)
  /\ (run_all Static.start ys a).(monitorTasks)
    = rev (map Static.created_task ys) ++ a.(monitorTasks)
  /\ (forall ts items, render_tasks 0 ts = Some items ->
        Forall2 (fun t it => get_prop t "keyword" = Some it.(item_keyword)) ts items
        /\ map item_index items = seq 0 (length ts)).
Proof.
  intros HF HS. split; [|split].
  - exact (run_all_pushes _ _ _ xs a frontend_start_creates HF).
  - exact (run_all_pushes _ _ _ ys a static_start_creates HS).
  - intros ts items. apply render_tasks_order.
Qed.

Lemma tasks_newest_first_witness :
  let xs := [(form_plain, created_ok "t1"); (form_email, created_ok "t2")] in
  all_ok Frontend.start Frontend.creates xs fresh_app = true
  /\ (run_all Frontend.start xs fresh_app).(monitorTasks)
     = rev (map Frontend.created_task xs) ++ fresh_app.(monitorTasks).
Proof.
  cbv zeta. split; [vm_compute; reflexivity|].
  exact (proj1 (tasks_newest_first
                  [(form_plain, created_ok "t1"); (form_email, created_ok "t2")] [] fresh_app
                  ltac:(vm_compute; reflexivity) eq_refl)).
Defined.

End OrderClaims.

Section RoundTripFacts.
Import Js Ui.

Lemma jsval_nested_ind (P : jsval -> Prop)
    (Hu : P JUndef) (Hn : P JNull) (Hb : forall b, P (JBool b)) (Hq : forall q, P (JNum q))
    (Hs : forall s, P (JStr s)) (Ha : forall xs, Forall P xs -> P (JArr xs))
    (Ho : forall ps, Forall (fun p => P p.2) ps -> P (JObj ps)) :
  forall v, P v.
Proof.
  fix IH 1. intros [| | b | q | s | xs | ps];
    [exact Hu | exact Hn | apply Hb | apply Hq | apply Hs | |].
  - apply Ha.
    refine ((fix go (xs : list jsval) : Forall P xs :=
               match xs with
               | [] => @List.Forall_nil _ P
               | x :: xs' => @List.Forall_cons _ P x xs' (IH x) (go xs')
               end) xs).
  - apply Ho.
    refine ((fix go (ps : list (string * jsval)) : Forall (fun p => P p.2) ps :=
               match ps with
               | [] => @List.Forall_nil _ _
               | (k, x) :: ps' =>
                   @List.Forall_cons _ (fun p => P p.2) (k, x) ps' (IH x) (go ps')
               end) ps).
Qed.

Lemma clean_arr (xs : list jsval) : clean (JArr xs) <-> Forall clean xs.
Proof.
  induction xs as [|x xs IH]; simpl; [split; auto|].
  rewrite Forall_cons, <- IH. reflexivity.
Qed.

Lemma clean_obj (ps : list (string * jsval)) :
  clean (JObj ps) <-> Forall (fun p => clean p.2) ps /\ build_props ps = ps.
Proof.
  simpl. enough (((fix go (ps : list (string * jsval)) : Prop :=
                     match ps with [] => True | (_, x) :: ps' => clean x /\ go ps' end) ps)
                 <-> Forall (fun p => clean p.2) ps) as -> by reflexivity.
  induction ps as [|[k x] ps IH]; simpl; [split; auto|].
  rewrite Forall_cons, <- IH. reflexivity.
Qed.

(** [JSON.parse(JSON.stringify(v))] gives [v] back for a clean [v]. *)
Lemma parse_stringify (v : jsval) :
  clean v -> exists j, stringify v = Some j /\ parse j = v.
Proof.
  induction v as [| | b | q | s | xs IH | ps IH] using jsval_nested_ind; simpl;
    try (intros; eexists; split; reflexivity); [done| |].
  - intros Hc. apply clean_arr in Hc. eexists. split; [reflexivity|].
    induction xs as [|x xs IHxs]; [done|].
    apply Forall_cons in IH as [Hx IH]. apply Forall_cons in Hc as [Hcx Hc].
    destruct (Hx Hcx) as (j & Ej & Pj). simpl. rewrite Ej. simpl. rewrite Pj.
    specialize (IHxs IH Hc). simpl in IHxs. injection IHxs as ->. reflexivity.
  - intros Hc. apply clean_obj in Hc as [Hc Hb]. eexists. split; [reflexivity|].
    transitivity (JObj (build_props ps)); [|by rewrite Hb]. clear Hb.
    simpl. f_equal. unfold build_props. generalize (@nil (string * jsval)).
    induction ps as [|[k x] ps IHps]; intros acc; [done|].
    apply Forall_cons in IH as [Hx IH]. apply Forall_cons in Hc as [Hcx Hc].
    destruct (Hx Hcx) as (j & Ej & Pj). simpl in Ej |- *. rewrite Ej. simpl. rewrite Pj.
    by apply IHps.
Qed.

End RoundTripFacts.

Section SuccessFacts.
Import Js Ui.

Lemma after_check_fields (a : app) :
  let a1 := Frontend.after_check a in
  a1.(monitorTasks) = a.(monitorTasks) /\ a1.(storage) = a.(storage)
  /\ a1.(statusLog) = a.(statusLog) /\ a1.(resultsView) = a.(resultsView)
  /\ a1.(keywordField) = a.(keywordField).
Proof. unfold Frontend.after_check. by destruct (apiStatus a). Qed.

Lemma updateMonitorList_ok (s : app) (t : jsval) (ts : list jsval)
    (items : list monitor_item) :
  s.(monitorTasks) = t :: ts -> render_tasks 0 (t :: ts) = Some items ->
  updateMonitorList s = (inr tt, set_view (MonitorItems items) s).
Proof.
  intros Ht Hr. unfold updateMonitorList, bind, get, modify. rewrite Ht.
  simpl in Hr |- *. by rewrite Hr.
Qed.

Lemma displayResults_ok (rs : list jsval) (items : list result_item) (s : app) :
  rs <> [] -> render_results rs = Some items ->
  displayResults (JArr rs) s = (inr tt, set_results (ResultItems items) s).
Proof.
  intros Hne H. destruct rs as [|r rs']; [done|].
  unfold displayResults, prop, bind, ret, modify. simpl.
  simpl in H. by rewrite H.
Qed.

End SuccessFacts.

Section RenderFacts.
Import Js Ui.

Lemma get_prop_defined (v : jsval) (k : string) :
  v <> JUndef -> v <> JNull -> exists x, get_prop v k = Some x.
Proof. destruct v; simpl; intros; try congruence; eauto. Qed.

Lemma render_task_ok (i : nat) (t : jsval) :
  task_renders t ->
  exists it, render_task i t = Some it /\ shows_task t it /\ it.(item_index) = i.
Proof.
  intros (H1 & H2 & H3 & _).
  destruct (get_prop_defined t "keyword" H1 H2) as [kw Ek].
  destruct (get_prop_defined t "sites" H1 H2) as [st Es].
  unfold render_task, shows_task. rewrite Ek, Es.
  destruct (truthy st) eqn:Et.
  - destruct (H3 st Es Et) as (xs & -> & _).
    eexists. split; [reflexivity|]. split; [|reflexivity].
    exists kw, (JArr xs). simpl. auto.
  - eexists. split; [reflexivity|]. split; [|reflexivity].
    exists kw, st. rewrite Et. auto.
Qed.

Lemma render_task_breaks (i : nat) (t : jsval) :
  task_breaks t -> render_task i t = None.
Proof.
  intros [->|[->|(v & Es & Et & Hv)]]; [reflexivity|reflexivity|].
  unfold render_task. rewrite Es.
  destruct (get_prop t "keyword"); [|reflexivity]. rewrite Et.
  destruct v; try reflexivity. exfalso. eapply Hv. reflexivity.
Qed.

Lemma render_tasks_ok (i : nat) (ts : list jsval) :
  Forall task_renders ts ->
  exists items, render_tasks i ts = Some items /\ Forall2 shows_task ts items
    /\ map item_index items = seq i (length ts).
Proof.
  induction ts as [|t ts IH] in i |- *; intros HF.
  - exists []. split; [reflexivity|]. split; [constructor | reflexivity].
  - inversion HF as [|? ? Ht Hts]; subst.
    destruct (render_task_ok i t Ht) as (it & E1 & Hs1 & Hi1).
    destruct (IH (S i) Hts) as (its & E2 & Hs2 & Hi2).
    exists (it :: its). simpl. rewrite E1, E2. split; [reflexivity|].
    split; [constructor; assumption|]. simpl. by rewrite Hi1, Hi2.
Qed.

Lemma render_tasks_breaks (i : nat) (ts : list jsval) :
  Exists task_breaks ts -> render_tasks i ts = None.
Proof.
  induction ts as [|t ts IH] in i |- *; intros HE; inversion HE as [? ? Ht|? ? Hts]; subst; simpl.
  - by rewrite (render_task_breaks i t Ht).
  - rewrite (IH (S i) Hts). by destruct (render_task i t).
Qed.

(** [updateMonitorList] on a list every task of which renders. *)
Lemma updateMonitorList_rendered (s : app) :
  Forall task_renders s.(monitorTasks) ->
  exists items,
    updateMonitorList s =
      (inr tt, set_view (match s.(monitorTasks) with
                         | [] => MonitorsEmpty
                         | _ => MonitorItems items
                         end) s)
    /\ Forall2 shows_task s.(monitorTasks) items
    /\ map item_index items = seq 0 (length s.(monitorTasks)).
Proof.
  intros HF. destruct (render_tasks_ok 0 _ HF) as (items & E & H1 & H2).
  exists items. split; [|split; assumption].
  revert E. unfold updateMonitorList, bind, get, modify. cbv beta iota.
  destruct (monitorTasks s) as [|t ts]; intros E; [reflexivity|]. by rewrite E.
Qed.

Lemma updateMonitorList_broken (s : app) :
  Exists task_breaks s.(monitorTasks) -> updateMonitorList s = (inl type_error, s).
Proof.
  intros HE. pose proof (render_tasks_breaks 0 _ HE) as E. revert HE E.
  unfold updateMonitorList, bind, get, throw. cbv beta iota.
  destruct (monitorTasks s) as [|t ts]; intros HE E; [inversion HE|]. by rewrite E.
Qed.

Lemma splice1_length {A} (xs : list A) (i : Z) :
  length (splice1 xs i) =
    if Z.ltb i (Z.of_nat (length xs)) then length xs - 1 else length xs.
Proof.
  unfold splice1.
  destruct (Z.ltb_spec i (Z.of_nat (length xs))) as [Hl|Hl];
    destruct (Z.ltb_spec i 0) as [Hn|Hn].
  - destruct (decide (Z.to_nat (Z.max (Z.of_nat (length xs) + i) 0) < length xs)) as [Hlt|Hge].
    + apply length_delete, lookup_lt_is_Some. exact Hlt.
    + rewrite delete_past_end by lia. lia.
  - rewrite Z.min_l by lia. apply length_delete, lookup_lt_is_Some. lia.
  - lia.
  - rewrite Z.min_r by lia. rewrite delete_past_end by lia. reflexivity.
Qed.

Lemma splice1_delete {A} (xs : list A) (i : Z) : exists n, splice1 xs i = delete n xs.
Proof. unfold splice1. eauto. Qed.

Lemma removeMonitor_fields (i : Z) (a : app) :
  let a' := run (removeMonitor i) a in
  a'.(monitorTasks) = splice1 a.(monitorTasks) i
  /\ a'.(sent) = a.(sent) /\ a'.(statusLog) = a.(statusLog) /\ a'.(button) = a.(button)
  /\ a'.(apiStatus) = a.(apiStatus) /\ a'.(resultsView) = a.(resultsView)
  /\ a'.(keywordField) = a.(keywordField).
Proof.
  unfold removeMonitor, updateMonitorList, run, bind, modify, get. simpl.
  repeat case_match; simplify_eq/=; repeat split.
Qed.

Lemma result_status_defined (av : jsval) : exists p, result_status av = Some p.
Proof.
  unfold result_status. destruct (truthy av) eqn:Et; [|eauto].
  assert (H1 : av <> JUndef) by (intros ->; discriminate).
  assert (H2 : av <> JNull) by (intros ->; discriminate).
  destruct (get_prop_defined av "status" H1 H2) as [st Est]. rewrite Est.
  destruct (is_str st "success"); [|eauto].
  destruct (get_prop_defined av "is_available" H1 H2) as [ia Eia]. rewrite Eia. eauto.
Qed.

Lemma render_result_ok (r : jsval) :
  result_renders r -> exists it, render_result r = Some it /\ shows_result r it.
Proof.
  intros (H1 & H2 & _). unfold render_result, shows_result.
  destruct (get_prop_defined r "availability" H1 H2) as [av Eav]. rewrite Eav.
  destruct (result_status_defined av) as [[cls txt] Es]. rewrite Es.
  destruct (get_prop_defined r "title" H1 H2) as [ti Eti]. rewrite Eti.
  destruct (get_prop_defined r "url" H1 H2) as [u Eu]. rewrite Eu.
  eexists. split; [reflexivity|]. exists ti, u. auto.
Qed.

Lemma render_results_ok (rs : list jsval) :
  Forall result_renders rs ->
  exists items, render_results rs = Some items /\ Forall2 shows_result rs items.
Proof.
  induction rs as [|r rs IH]; intros HF.
  - exists []. split; [reflexivity | constructor].
  - inversion HF as [|? ? Hr Hrs]; subst.
    destruct (render_result_ok r Hr) as (it & E1 & Hs1).
    destruct (IH Hrs) as (its & E2 & Hs2).
    exists (it :: its). simpl. rewrite E1, E2. split; [reflexivity | by constructor].
Qed.

Lemma render_results_breaks (rs : list jsval) :
  Exists (fun r => r = JUndef \/ r = JNull) rs -> render_results rs = None.
Proof.
  induction rs as [|r rs IH]; intros HE; inversion HE as [? ? Hr|? ? Hrs]; subst; simpl.
  - by destruct Hr as [->| ->].
  - rewrite (IH Hrs). by destruct (render_result r).
Qed.

Lemma run_try_catch_throw {A B} (m1 : M A) (k : A -> M B) (h : js_error -> M B)
    (s : app) (e : js_error) (s1 : app) :
  m1 s = (inl e, s1) -> run (try_catch (bind m1 k) h) s = run (h e) s1.
Proof. intros E. unfold run, try_catch, bind. by rewrite E. Qed.

End RenderFacts.

(** Checking [task_renders] and [result_renders] on concrete values. *)
Ltac solve_renders :=
  repeat match goal with
  | |- Forall _ [] => constructor
  | |- Forall _ (_ :: _) => constructor
  | |- Forall _ ?l => let l' := eval vm_compute in l in progress change l with l'
  | |- Ui.task_renders _ => unfold Ui.task_renders
  | |- Ui.result_renders _ => unfold Ui.result_renders
  | |- _ /\ _ => split
  | |- _ <> _ => let H := fresh in intro H; vm_compute in H; discriminate H
  | |- forall _, _ =>
      let v := fresh in let E := fresh in
      intros v E; vm_compute in E; injection E as <-; intros;
      try discriminate; vm_compute; repeat (split || eexists)
  end.

Section StorableFacts.
Import Js Ui.

Lemma stringify_clean_some (v : jsval) : clean v -> exists j, stringify v = Some j.
Proof. intros H. destruct (parse_stringify v H) as (j & Ej & _). eauto. Qed.

Lemma clean_defined (k : string) (x : jsval) : clean x -> defined_prop (k, x) = true.
Proof. by destruct x. Qed.

(** [JSON.stringify] leaves out the [undefined] properties. *)
Lemma stringify_obj_filter (ps : list (string * jsval)) :
  Forall (fun p => p.2 = JUndef \/ clean p.2) ps ->
  stringify (JObj ps) = stringify (JObj (List.filter defined_prop ps)).
Proof.
  induction ps as [|[k x] ps IH]; intros HF; [reflexivity|].
  inversion HF as [|? ? Hx Hps]; subst. specialize (IH Hps). cbn [List.filter].
  destruct Hx as [Hx|Hc].
  - simpl in Hx. subst x. cbn [defined_prop snd]. rewrite <- IH. reflexivity.
  - rewrite (clean_defined k x Hc).
    destruct (stringify_clean_some x Hc) as [j Ej].
    simpl. rewrite Ej. simpl in IH. injection IH as IH. by rewrite IH.
Qed.

Lemma parse_stringify_storable (t : jsval) :
  storable t -> exists j, stringify t = Some j /\ parse j = drop_undefined t.
Proof.
  destruct t as [| | b | q | str | xs | ps].
  1-6: intros H; exact (parse_stringify _ H).
  intros [HF Hb]. rewrite (stringify_obj_filter ps HF).
  apply parse_stringify, clean_obj. split; [|exact Hb].
  apply List.Forall_forall. intros p Hp. apply filter_In in Hp as [Hp Hd].
  rewrite List.Forall_forall in HF. destruct (HF p Hp) as [E|C]; [|exact C].
  unfold defined_prop in Hd. rewrite E in Hd. discriminate.
Qed.

Lemma load_saved_storable (ts : list jsval) :
  Forall storable ts ->
  load_tasks (Some (StoredJson (stringify_array ts))) = Some (map drop_undefined ts).
Proof.
  induction ts as [|t ts IH]; intros HF; [reflexivity|].
  inversion HF as [|? ? Ht Hts]; subst. specialize (IH Hts).
  destruct (parse_stringify_storable t Ht) as (j & Ej & Pj).
  unfold load_tasks, stringify_array in *. simpl in IH |- *.
  rewrite Ej. simpl. rewrite Pj.
  destruct ((fix go (xs : list json) : list jsval :=
               match xs with [] => [] | x :: xs' => parse x :: go xs' end) _);
    by injection IH as ->.
Qed.

Lemma drop_undefined_clean (t : jsval) : clean t -> drop_undefined t = t.
Proof.
  destruct t as [| | | | | | ps]; try reflexivity. intros Hc.
  apply clean_obj in Hc as [Hc _]. simpl. f_equal.
  induction ps as [|[k x] ps IH]; [reflexivity|].
  inversion Hc as [|? ? Hx Hps]; subst. simpl in Hx.
  cbn [List.filter]. rewrite (clean_defined k x Hx). by rewrite IH.
Qed.

Lemma clean_storable (t : jsval) : clean t -> storable t.
Proof.
  intros Hc. destruct t as [| | | | | | ps]; try exact Hc.
  pose proof (drop_undefined_clean _ Hc) as Hd. simpl in Hd. injection Hd as Hd.
  apply clean_obj in Hc as [Hc Hb]. split; [|by rewrite Hd].
  eapply Forall_impl; [exact Hc|]. intros p Hp. by right.
Qed.

End StorableFacts.

Section RoundTripClaims.
Import Js Ui Samples.

(** Counterexample to claim C10: a task whose [task_id] is [undefined]
    (an answer without [task_id]) comes back without that property. *)
Lemma tasks_round_trip_counterexample :
  option_map monitorTasks (construct (save (set_tasks [task_without_id] fresh_app)).(storage))
    = Some [task_without_id_reloaded]
  /\ task_without_id_reloaded <> task_without_id.
Proof. split; [vm_compute; reflexivity | vm_compute; discriminate]. Qed.

(** Claim C10, as amended: when every stored task is storable (each
    property [undefined] or clean, the others in the order [JSON.parse]
    rebuilds them) and the reloaded tasks render, constructing the app
    from the saved copy gives back every task with its [undefined]
    properties left out, and nothing else changed: a clean list comes back
    equal, and a task holding an [undefined] property comes back without
    it.  With no stored value the app starts with no task. *)
Theorem tasks_round_trip (a : app) :
  Forall storable a.(monitorTasks) ->
  Forall task_renders (map drop_undefined a.(monitorTasks)) ->
  (exists a', construct (save a).(storage) = Some a'
              /\ a'.(monitorTasks) = map drop_undefined a.(monitorTasks))
  /\ (Forall clean a.(monitorTasks) -> map drop_undefined a.(monitorTasks) = a.(monitorTasks))
  /\ option_map monitorTasks (construct None) = Some [].
Proof.
  intros Hs Hr. split; [|split; [|reflexivity]].
  - unfold construct, save, set_storage. cbn [storage]. rewrite (load_saved_storable _ Hs).
    match goal with
    | |- context [updateMonitorList ?st] =>
        destruct (updateMonitorList_rendered st Hr) as (items & E & _); rewrite E
    end.
    eexists. split; reflexivity.
  - intros Hc. clear Hs Hr. induction (monitorTasks a) as [|t ts IH]; [reflexivity|].
    inversion Hc as [|? ? Ht Hts]; subst. cbn [map].
    rewrite (drop_undefined_clean t Ht). by rewrite IH.
Qed.

Lemma tasks_round_trip_witness :
  Forall storable (set_tasks [task_without_id] fresh_app).(monitorTasks)
  /\ Forall task_renders (map drop_undefined (set_tasks [task_without_id] fresh_app).(monitorTasks))
  /\ exists a', construct (save (set_tasks [task_without_id] fresh_app)).(storage) = Some a'
                /\ a'.(monitorTasks) = [task_without_id_reloaded].
Proof.
  assert (Hs : Forall storable (set_tasks [task_without_id] fresh_app).(monitorTasks)).
  { cbn [set_tasks monitorTasks]. constructor; [|constructor].
    unfold task_without_id, Frontend.new_task. cbn [storable].
    split; [|vm_compute; reflexivity].
    repeat match goal with
           | |- Forall _ [] => constructor
           | |- Forall _ (_ :: _) => constructor
           | |- _ \/ _ => first [left; reflexivity | right; vm_compute; repeat split]
           end. }
  assert (Hr : Forall task_renders
                 (map drop_undefined (set_tasks [task_without_id] fresh_app).(monitorTasks)))
    by solve_renders.
  split; [exact Hs|]. split; [exact Hr|].
  destruct (proj1 (tasks_round_trip (set_tasks [task_without_id] fresh_app) Hs Hr))
    as (a' & E1 & E2).
  exists a'. split; [exact E1|]. rewrite E2. vm_compute. reflexivity.
Defined.

End RoundTripClaims.

Section TimeoutClaims.
Import Js Ui Samples.

(** Claim C7 (divergence): with no [timeout] argument and no
    [window.API_TIMEOUT] the limit is 30000 ms, yet once the headers have
    arrived the timer is cleared: a body that never completes leaves
    [apiRequest] pending forever, and a body completing at 90 s resolves
    the call at 90 s instead of failing it at 30 s. *)
Theorem apiRequest_body_unbounded :
  Frontend.request_timeout None None = 30000%N
  /\ Frontend.api_request None None
       (Frontend.HeadersAt 120 true 200 "OK" Frontend.BodyNever) = Frontend.NeverSettles
  /\ Frontend.api_request None None
       (Frontend.HeadersAt 120 true 200 "OK"
          (Frontend.BodyAt 90000 (Frontend.BodyJson health_body)))
     = Frontend.SettledAt 90000 (Frontend.ApiResolved health_body).
Proof. vm_compute. repeat split. Qed.

End TimeoutClaims.


(** ** Further properties of the two builds *)

Section MoreFrames.
Import Js Ui.

Lemma preserves_keeps_synced {A} (m : M A) :
  preserves same_tasks m -> preserves keeps_synced m.
Proof.
  intros H s Hs. destruct (H s) as [Ht Hst]. unfold synced in *. rewrite Ht, Hst. exact Hs.
Qed.

Lemma showStatus_same_sent m k : preserves same_sent (showStatus m k).
Proof. unfold showStatus. frame. Qed.
Lemma prop_same_sent v k : preserves same_sent (prop v k).
Proof. unfold prop. frame. Qed.
#[local] Hint Resolve showStatus_same_sent prop_same_sent : frames.
Lemma updateMonitorList_same_sent : preserves same_sent updateMonitorList.
Proof. unfold updateMonitorList. frame. Qed.
Lemma displayResults_same_sent v : preserves same_sent (displayResults v).
Proof. unfold displayResults. frame. Qed.
Lemma frontend_on_error_same_sent e : preserves same_sent (Frontend.on_error e).
Proof. unfold Frontend.on_error, Frontend.updateApiStatus. frame. Qed.
Lemma static_on_error_same_sent e : preserves same_sent (Static.on_error e).
Proof. unfold Static.on_error. frame. Qed.
Lemma await_api_same_sent o : preserves same_sent (Frontend.await_api o).
Proof. unfold Frontend.await_api. frame. Qed.

Lemma save_synced (a : app) : synced (save a).
Proof. reflexivity. Qed.

(** [unshift] or [splice] followed at once by [setItem]. *)
Lemma preserves_modify_save (g : app -> app) {B} (k : M B) :
  preserves keeps_synced k -> preserves keeps_synced (modify g ;;; modify save ;;; k).
Proof.
  intros Hk s _. unfold run, bind, modify. simpl.
  exact (Hk (save (g s)) (save_synced _)).
Qed.

End MoreFrames.

#[global] Hint Resolve showStatus_same_sent prop_same_sent updateMonitorList_same_sent
  displayResults_same_sent frontend_on_error_same_sent static_on_error_same_sent
  await_api_same_sent : frames.
#[global] Hint Extern 2 (Ui.preserves Ui.keeps_synced _) =>
  apply preserves_keeps_synced; solve [eauto with frames] : frames.

Ltac frame_extra ::= apply preserves_modify_save.

Section SyncFacts.
Import Js Ui.

Lemma frontend_start_keeps_synced f r : preserves keeps_synced (Frontend.startMonitoring f r).
Proof.
  unfold Frontend.startMonitoring, Frontend.submit. frame.
Qed.

Lemma static_start_keeps_synced f o : preserves keeps_synced (Static.startMonitoring f o).
Proof.
  unfold Static.startMonitoring, Static.submit. frame.
Qed.

End SyncFacts.

Section HealthFacts.
Import Js Ui.

Lemma checkApiStatus_spec (o : Frontend.api_outcome) (s : app) :
  Frontend.checkApiStatus o s =
    (inr (Frontend.healthy o),
     set_api (if Frontend.healthy o then ApiOnline else ApiOffline)
       (push_request Frontend.health_request s)).
Proof.
  unfold Frontend.checkApiStatus, Frontend.updateApiStatus, Frontend.await_api,
    Frontend.healthy, try_catch, prop, bind, ret, throw, modify.
  destruct o as [v|e]; simpl; [|reflexivity].
  destruct (get_prop v "status") as [st|]; simpl; [|reflexivity].
  by destruct (is_str st "healthy").
Qed.

End HealthFacts.

Section StartFacts.
Import Js Ui Samples.

Lemma bind_step {A B} (m : M A) (k : A -> M B) (s : app) (x : A) (s1 : app) :
  m s = (inr x, s1) -> bind m k s = k x s1.
Proof. intros E. unfold bind. by rewrite E. Qed.

Lemma frontend_start_exact (f : form) (r : Frontend.responses) (a : app) :
  Frontend.issues_request f r a = true ->
  run (Frontend.startMonitoring f r) a =
    set_button (false, "开始监控")
      (run (try_catch (Frontend.submit (trim f.(keyword_input)) (trim f.(email_input))
                         f.(checked_sites) r.(Frontend.add_response) r.(Frontend.now))
                      Frontend.on_error)
           (push_status loading_message StLoading
              (set_button (true, "搜索中...") (Frontend.after_check a)))).
Proof.
  unfold Frontend.issues_request. intros H.
  apply andb_prop in H as [H Hapi]. apply andb_prop in H as [Hk Hs].
  apply negb_true_iff in Hk, Hs.
  unfold Frontend.startMonitoring. cbv zeta. rewrite Hk, Hs.
  unfold run at 1. erewrite bind_step by reflexivity. cbv beta.
  unfold Frontend.after_check. destruct (apiStatus a) eqn:Ea.
  1,2: erewrite bind_step by reflexivity; cbv beta iota;
       rewrite <- run_try_finally_modify; unfold run, bind, modify, showStatus; reflexivity.
  erewrite bind_step by apply checkApiStatus_spec. rewrite Hapi. cbv beta iota.
  rewrite <- run_try_finally_modify. unfold run, bind, modify, showStatus. reflexivity.
Qed.

Lemma frontend_submit_sent k e sites o now (s : app) :
  (run (try_catch (Frontend.submit k e sites o now) Frontend.on_error) s).(sent)
  = s.(sent) ++ [add_monitor_request k e sites].
Proof.
  unfold Frontend.submit. erewrite run_try_catch_step by reflexivity. cbv beta.
  match goal with
  | |- (run (try_catch ?m ?h) ?s1).(sent) = _ =>
      change ((run (try_catch m h) s1).(sent) = s1.(sent));
      apply (try_catch_ok_frame same_sent m h s1)
  end; frame.
Qed.

Lemma static_submit_sent k e sites o (s : app) :
  (run (try_catch (Static.submit k e sites o) Static.on_error) s).(sent)
  = s.(sent) ++ [add_monitor_request k e sites].
Proof.
  unfold Static.submit. erewrite run_try_catch_step by reflexivity. cbv beta.
  match goal with
  | |- (run (try_catch ?m ?h) ?s1).(sent) = _ =>
      change ((run (try_catch m h) s1).(sent) = s1.(sent));
      apply (try_catch_ok_frame same_sent m h s1)
  end; frame.
Qed.

End StartFacts.

Section OfflineFacts.
Import Js Ui Samples.

Lemma guards_pass (f : form) :
  trim f.(keyword_input) <> "" -> f.(checked_sites) <> [] ->
  String.eqb (trim f.(keyword_input)) "" = false
  /\ Nat.eqb (length f.(checked_sites)) 0 = false.
Proof.
  intros Hk Hs. split; [by apply String.eqb_neq|].
  destruct (checked_sites f); [done | reflexivity].
Qed.

Lemma frontend_offline_exact (f : form) (r : Frontend.responses) (a : app) :
  trim f.(keyword_input) <> "" -> f.(checked_sites) <> [] ->
  a.(apiStatus) = ApiOffline -> Frontend.healthy r.(Frontend.health_response) = false ->
  run (Frontend.startMonitoring f r) a =
    push_status (JStr "后端API不可用，请检查网络连接或稍后重试") StError
      (set_api ApiOffline (push_request Frontend.health_request a)).
Proof.
  intros Hk Hs Ea Hh. destruct (guards_pass f Hk Hs) as [Ek Es].
  unfold Frontend.startMonitoring. cbv zeta. rewrite Ek, Es.
  unfold run. erewrite bind_step by reflexivity. cbv beta. rewrite Ea.
  erewrite bind_step by apply checkApiStatus_spec. rewrite Hh. reflexivity.
Qed.

End OfflineFacts.

Section ExtraStart.
Import Js Ui Samples.

(** The requests one [app.js] submission issues, once the keyword and
    the sites are given: [/health] exactly when the API is marked offline,
    then [/api/add-monitor] unless that check failed. *)
Theorem frontend_requests_issued (f : form) (r : Frontend.responses) (a : app) :
  trim f.(keyword_input) <> "" -> f.(checked_sites) <> [] ->
  (run (Frontend.startMonitoring f r) a).(sent) =
    a.(sent)
    ++ (match a.(apiStatus) with ApiOffline => [Frontend.health_request] | _ => [] end)
    ++ (if match a.(apiStatus) with
           | ApiOffline => Frontend.healthy r.(Frontend.health_response)
           | _ => true
           end
        then [add_monitor_request (trim f.(keyword_input)) (trim f.(email_input))
                f.(checked_sites)]
        else []).
Proof.
  intros Hk Hs. destruct (Frontend.issues_request f r a) eqn:Hi.
  - rewrite (frontend_start_exact f r a Hi). simpl. rewrite frontend_submit_sent.
    unfold Frontend.issues_request in Hi. destruct (guards_pass f Hk Hs) as [Ek Es].
    rewrite Ek, Es in Hi. simpl in Hi.
    unfold Frontend.after_check. destruct (apiStatus a); simpl; rewrite ?Hi; simpl;
      by rewrite <- ?app_assoc.
  - unfold Frontend.issues_request in Hi. destruct (guards_pass f Hk Hs) as [Ek Es].
    rewrite Ek, Es in Hi. simpl in Hi.
    destruct (apiStatus a) eqn:Ea; try discriminate.
    rewrite (frontend_offline_exact f r a Hk Hs Ea Hi), Hi. simpl. by rewrite ?app_nil_r.
Qed.

Lemma frontend_requests_issued_witness :
  trim form_plain.(keyword_input) <> "" /\ form_plain.(checked_sites) <> []
  /\ (run (Frontend.startMonitoring form_plain timed_out) fresh_app).(sent) =
     [add_monitor_request "iPhone 15 Pro Max" "" ["amazon.co.jp"]].
Proof.
  split; [vm_compute; discriminate|]. split; [discriminate|].
  exact (frontend_requests_issued form_plain timed_out fresh_app
           ltac:(vm_compute; discriminate) ltac:(discriminate)).
Defined.

(** The requests one [main.js] submission issues, once the keyword and
    the sites are given: exactly one [/api/add-monitor]. *)
Theorem static_requests_issued (f : form) (o : Static.fetch_outcome) (a : app) :
  trim f.(keyword_input) <> "" -> f.(checked_sites) <> [] ->
  (run (Static.startMonitoring f o) a).(sent) =
    a.(sent) ++ [add_monitor_request (trim f.(keyword_input)) (trim f.(email_input))
                   f.(checked_sites)].
Proof.
  intros Hk Hs. destruct (guards_pass f Hk Hs) as [Ek Es].
  assert (Hi : Static.issues_request f = true)
    by (unfold Static.issues_request; by rewrite Ek, Es).
  rewrite (static_start_shape f o a Hi). simpl. by rewrite static_submit_sent.
Qed.

Lemma static_requests_issued_witness :
  trim form_email.(keyword_input) <> "" /\ form_email.(checked_sites) <> []
  /\ (run (Static.startMonitoring form_email network_down) fresh_app).(sent) =
     [add_monitor_request "Speedy 30" "buyer@example" ["amazon.co.jp"; "louisvuitton.com"]].
Proof.
  split; [vm_compute; discriminate|]. split; [discriminate|].
  exact (static_requests_issued form_email network_down fresh_app
           ltac:(vm_compute; discriminate) ltac:(discriminate)).
Defined.

(** In [app.js], while the API is marked offline and [/health] does not
    answer [status: 'healthy'], a submission only issues the [/health]
    request, keeps the API marked offline and shows
    ['后端API不可用，请检查网络连接或稍后重试']: no add-monitor request, the
    button and the tasks untouched. *)
Theorem frontend_offline_blocks (f : form) (r : Frontend.responses) (a : app) :
  trim f.(keyword_input) <> "" -> f.(checked_sites) <> [] ->
  a.(apiStatus) = ApiOffline -> Frontend.healthy r.(Frontend.health_response) = false ->
  run (Frontend.startMonitoring f r) a =
    push_status (JStr "后端API不可用，请检查网络连接或稍后重试") StError
      (set_api ApiOffline (push_request Frontend.health_request a)).
Proof. apply frontend_offline_exact. Qed.

Lemma frontend_offline_blocks_witness :
  (set_api ApiOffline fresh_app).(apiStatus) = ApiOffline
  /\ (run (Frontend.startMonitoring form_plain timed_out) (set_api ApiOffline fresh_app)).(sent)
     = [Frontend.health_request].
Proof.
  split; [reflexivity|].
  rewrite (frontend_offline_blocks form_plain timed_out (set_api ApiOffline fresh_app)
             ltac:(vm_compute; discriminate) ltac:(discriminate) eq_refl eq_refl).
  reflexivity.
Defined.

(** [checkApiStatus] never throws: it issues one [GET /health], resolves
    to whether the answer has [status === 'healthy'] (a rejection, a
    [null] answer or another status give [false]), marks the API online or
    offline accordingly, and changes nothing else. *)
Theorem checkApiStatus_outcome (o : Frontend.api_outcome) (s : app) :
  Frontend.checkApiStatus o s =
    (inr (Frontend.healthy o),
     set_api (if Frontend.healthy o then ApiOnline else ApiOffline)
       (push_request Frontend.health_request s)).
Proof. apply checkApiStatus_spec. Qed.

(** Every submission (both builds) and every [removeMonitor] leave
    [localStorage] holding the serialization of the in-memory task list,
    if it did so before; after [removeMonitor] it always does. *)
Theorem storage_stays_synced (i : Z) (f : form) (r : Frontend.responses)
    (o : Static.fetch_outcome) (a : app) :
  synced (run (removeMonitor i) a)
  /\ (synced a -> synced (run (Frontend.startMonitoring f r) a))
  /\ (synced a -> synced (run (Static.startMonitoring f o) a)).
Proof.
  split; [|split].
  - unfold removeMonitor, run at 1, bind, modify. simpl.
    destruct (updateMonitorList_tasks (save (set_tasks (splice1 (monitorTasks a) i) a)))
      as [Ht Hs].
    unfold synced. unfold run in Ht, Hs. rewrite Ht, Hs. reflexivity.
  - apply frontend_start_keeps_synced.
  - apply static_start_keeps_synced.
Qed.

Lemma storage_stays_synced_witness :
  synced (save fresh_app)
  /\ synced (run (Static.startMonitoring form_plain network_down) (save fresh_app)).
Proof.
  split; [reflexivity|].
  exact (proj2 (proj2 (storage_stays_synced 0 form_plain timed_out network_down
                         (save fresh_app))) eq_refl).
Defined.

End ExtraStart.


Section ExtraErrors.
Import Js Ui Samples.

(** In [app.js], when the add-monitor request is rejected with an error
    [e], the message shown after the loading message depends on [e]'s
    text: a ['Failed to fetch'] error shows
    ['无法连接到后端服务，请检查网络连接'] and marks the API offline; a
    timeout ('请求超时') shows ['请求超时，请稍后重试或检查网络连接']; any
    other shows ['错误: '] and the message.  Only the first changes the API
    state. *)
Theorem frontend_rejection_message (f : form) (r : Frontend.responses) (a : app)
    (e : js_error) :
  Frontend.issues_request f r a = true ->
  r.(Frontend.add_response) = Frontend.ApiRejected e ->
  let a' := run (Frontend.startMonitoring f r) a in
  a'.(apiStatus) =
    (if includes e.(err_message) "Failed to fetch" then ApiOffline
     else match a.(apiStatus) with ApiOffline => ApiOnline | st => st end)
  /\ a'.(statusLog) = a.(statusLog) ++
       [(loading_message, StLoading);
        (JStr (if includes e.(err_message) "Failed to fetch"
               then "无法连接到后端服务，请检查网络连接"
               else if includes e.(err_message) "请求超时"
               then "请求超时，请稍后重试或检查网络连接"
               else String.append "错误: " e.(err_message)), StError)].
Proof.
  intros Hi Hr. cbv zeta. rewrite (frontend_start_exact f r a Hi), Hr.
  unfold Frontend.submit, Frontend.await_api, Frontend.on_error, Frontend.updateApiStatus,
    showStatus, try_catch, bind, modify, throw, run.
  simpl. unfold Frontend.after_check.
  destruct (includes (err_message e) "Failed to fetch"), (includes (err_message e) "请求超时");
    destruct (apiStatus a) eqn:Ea; simpl; split; try reflexivity; try assumption;
    rewrite <- app_assoc; reflexivity.
Qed.

Lemma frontend_rejection_message_witness :
  Frontend.issues_request form_plain timed_out fresh_app = true
  /\ (run (Frontend.startMonitoring form_plain timed_out) fresh_app).(statusLog) =
     [(loading_message, StLoading); (JStr "请求超时，请稍后重试或检查网络连接", StError)].
Proof.
  split; [vm_compute; reflexivity|].
  exact (proj2 (frontend_rejection_message form_plain timed_out fresh_app
                  Frontend.timeout_error ltac:(vm_compute; reflexivity) eq_refl)).
Defined.

(** In [main.js], a failed submission shows ['错误: '] followed by the
    error's message: the rejection's message; ['服务器错误 (status)'] for a
    response without [ok], whatever its body (the body is not read); the
    parse error's message for an [ok] response whose body is not JSON. *)
Theorem static_failure_message (f : form) (a : app) :
  Static.issues_request f = true ->
  let msgs o := (run (Static.startMonitoring f o) a).(statusLog) in
  (forall e, msgs (Static.FetchRejected e) =
     a.(statusLog) ++ [(loading_message, StLoading);
                       (JStr (String.append "错误: " e.(err_message)), StError)])
  /\ (forall st body, msgs (Static.FetchResponse false st body) =
     a.(statusLog) ++ [(loading_message, StLoading);
                       (JStr (String.append "错误: "
                          (String.append "服务器错误 (" (String.append (pretty st) ")"))),
                        StError)])
  /\ (forall st e, msgs (Static.FetchResponse true st (Frontend.BodyInvalid e)) =
     a.(statusLog) ++ [(loading_message, StLoading);
                       (JStr (String.append "错误: " e.(err_message)), StError)]).
Proof.
  intros Hi. cbv zeta.
  split; [|split]; intros;
    rewrite (static_start_shape f _ a Hi);
    unfold Static.submit, Static.on_error, showStatus, try_catch, bind, modify, throw, run;
    simpl; by rewrite <- app_assoc.
Qed.

Lemma static_failure_message_witness :
  Static.issues_request form_plain = true
  /\ (run (Static.startMonitoring form_plain network_down) fresh_app).(statusLog) =
     [(loading_message, StLoading); (JStr "错误: Failed to fetch", StError)].
Proof.
  split; [vm_compute; reflexivity|].
  exact (proj1 (static_failure_message form_plain fresh_app
                  ltac:(vm_compute; reflexivity)) _).
Defined.

End ExtraErrors.

Section ExtraSuccess.
Import Js Ui Samples.

(** A successful create in [app.js] (answer [status: 'success']), when
    the task list with the new task renders and [results] is falsy or an
    array of renderable results: the new task is first in the list and the
    stored copy is its serialization; the loading message is followed by
    [summary || '监控任务已添加']; the keyword field is cleared and the
    button restored; the results panel shows the results when there is at
    least one, and otherwise keeps what it showed before. *)
Theorem frontend_success_effects (f : form) (r : Frontend.responses) (a : app)
    (ps : list (string * jsval)) :
  Frontend.issues_request f r a = true ->
  r.(Frontend.add_response) = Frontend.ApiResolved (JObj ps) ->
  is_str (lookup_prop "status" ps) "success" = true ->
  let task := Frontend.new_task (trim f.(keyword_input)) (trim f.(email_input))
                f.(checked_sites) (lookup_prop "timestamp" ps) (lookup_prop "task_id" ps)
                r.(Frontend.now) in
  let res := lookup_prop "results" ps in
  Forall task_renders (task :: a.(monitorTasks)) ->
  (truthy res = false \/ exists rs, res = JArr rs /\ Forall result_renders rs) ->
  let a' := run (Frontend.startMonitoring f r) a in
  a'.(monitorTasks) = task :: a.(monitorTasks) /\ synced a'
  /\ a'.(statusLog) = a.(statusLog) ++
       [(loading_message, StLoading);
        (js_or (lookup_prop "summary" ps) (JStr "监控任务已添加"), StSuccess)]
  /\ a'.(keywordField) = "" /\ a'.(button) = (false, "开始监控")
  /\ a'.(resultsView) =
       match res with
       | JArr (r0 :: rs) => option_map ResultItems (render_results (r0 :: rs))
       | _ => a.(resultsView)
       end.
Proof.
  intros Hi Hr Hst task res Hrend Hres. cbv zeta.
  destruct (render_tasks_ok 0 _ Hrend) as (items & Eitems & _).
  rewrite (frontend_start_exact f r a Hi), Hr. unfold Frontend.submit.
  do 3 (erewrite run_try_catch_step by reflexivity; cbv beta).
  rewrite Hst.
  do 6 (erewrite run_try_catch_step by reflexivity; cbv beta).
  destruct (after_check_fields a) as (Ht1 & Hs1 & Hl1 & Hr1 & Hk1).
  erewrite run_try_catch_step
    by (eapply updateMonitorList_ok; [simpl; rewrite Ht1; reflexivity | exact Eitems]).
  cbv beta.
  erewrite run_try_catch_step by reflexivity. cbv beta.
  set (s2 := set_view _ _).
  assert (Hs2 : s2.(monitorTasks) = task :: a.(monitorTasks) /\ synced s2
                /\ s2.(statusLog) = a.(statusLog) ++
                     [(loading_message, StLoading);
                      (js_or (lookup_prop "summary" ps) (JStr "监控任务已添加"), StSuccess)]
                /\ s2.(resultsView) = a.(resultsView)).
  { subst s2. unfold synced. simpl. rewrite Ht1, Hl1, Hr1, <- app_assoc.
    repeat split; reflexivity. }
  clearbody s2. destruct Hs2 as (Hts2 & Hsy2 & Hl2 & Hr2).
  unfold synced in *. subst res.
  destruct Hres as [Hf | (rs & Er & Hrr)].
  - rewrite Hf. erewrite run_try_catch_step by reflexivity. cbv beta.
    unfold run, try_catch, modify. simpl.
    rewrite Hts2, Hsy2, Hl2, Hr2, Hts2.
    destruct (lookup_prop "results" ps) as [| | | | |[|? ?]|]; simpl in Hf; try discriminate;
      repeat split; reflexivity.
  - rewrite Er. destruct rs as [|r0 rs].
    + erewrite run_try_catch_step by reflexivity. cbv beta.
      unfold run, try_catch, modify. simpl.
      rewrite Hts2, Hsy2, Hl2, Hr2, Hts2. repeat split; reflexivity.
    + destruct (render_results_ok _ Hrr) as (ritems & Eri & _). rewrite Eri.
      erewrite run_try_catch_step.
      2:{ unfold bind at 1, prop. simpl.
          exact (displayResults_ok (r0 :: rs) ritems s2 ltac:(discriminate) Eri). }
      cbv beta. unfold run, try_catch, modify.
      cbn [snd set_button set_keyword_field set_results monitorTasks storage statusLog
           keywordField button resultsView].
      rewrite Hts2, Hsy2, Hl2, Hts2. repeat split; reflexivity.
Qed.

Lemma frontend_success_effects_witness :
  Frontend.issues_request form_plain (created_ok "t1") fresh_app = true
  /\ (run (Frontend.startMonitoring form_plain (created_ok "t1")) fresh_app).(keywordField)
     = "".
Proof.
  assert (Hi : Frontend.issues_request form_plain (created_ok "t1") fresh_app = true)
    by (vm_compute; reflexivity).
  split; [exact Hi|].
  pose proof (frontend_success_effects form_plain (created_ok "t1") fresh_app
       [("status", JStr "success"); ("summary", JStr "ok");
        ("timestamp", JNum 1700000000); ("task_id", JStr "t1"); ("results", JArr [])]
       Hi eq_refl eq_refl) as H.
  cbv zeta in H.
  refine (proj1 (proj2 (proj2 (proj2 (H _ _))))).
  - solve_renders.
  - right. exists []. split; [reflexivity | constructor].
Defined.

(** A successful create in [main.js] ([ok] response, JSON body with
    [status: 'success']), when the task list with the new task renders and
    [results] is falsy or an array of renderable results: the new task is
    first in the list and the stored copy is its serialization; the
    loading message is followed by [data.summary] as it is; the keyword
    field is cleared and the button restored; the results panel shows the
    results, or its empty state when there are none. *)
Theorem static_success_effects (f : form) (st : Z) (a : app)
    (ps : list (string * jsval)) :
  Static.issues_request f = true ->
  is_str (lookup_prop "status" ps) "success" = true ->
  let task := Static.new_task (trim f.(keyword_input)) (trim f.(email_input))
                f.(checked_sites) (lookup_prop "timestamp" ps) (lookup_prop "results" ps) in
  let res := lookup_prop "results" ps in
  Forall task_renders (task :: a.(monitorTasks)) ->
  (truthy res = false \/ exists rs, res = JArr rs /\ Forall result_renders rs) ->
  let a' := run (Static.startMonitoring f
                   (Static.FetchResponse true st (Frontend.BodyJson (JObj ps)))) a in
  a'.(monitorTasks) = task :: a.(monitorTasks) /\ synced a'
  /\ a'.(statusLog) = a.(statusLog) ++
       [(loading_message, StLoading); (lookup_prop "summary" ps, StSuccess)]
  /\ a'.(keywordField) = "" /\ a'.(button) = (false, "开始监控")
  /\ a'.(resultsView) =
       match res with
       | JArr (r0 :: rs) => option_map ResultItems (render_results (r0 :: rs))
       | _ => Some ResultsEmpty
       end.
Proof.
  intros Hi Hst task res Hrend Hres. cbv zeta.
  destruct (render_tasks_ok 0 _ Hrend) as (items & Eitems & _).
  rewrite (static_start_shape f _ a Hi). unfold Static.submit.
  erewrite run_try_catch_step by reflexivity. cbv beta iota. simpl negb. cbv iota.
  do 2 (erewrite run_try_catch_step by reflexivity; cbv beta).
  rewrite Hst.
  do 6 (erewrite run_try_catch_step by reflexivity; cbv beta).
  erewrite run_try_catch_step
    by (eapply updateMonitorList_ok; [reflexivity | exact Eitems]).
  cbv beta.
  erewrite run_try_catch_step by reflexivity. cbv beta.
  set (s2 := set_view _ _).
  assert (Hs2 : s2.(monitorTasks) = task :: a.(monitorTasks) /\ synced s2
                /\ s2.(statusLog) = a.(statusLog) ++
                     [(loading_message, StLoading); (lookup_prop "summary" ps, StSuccess)]).
  { subst s2. unfold synced. simpl. rewrite <- app_assoc. repeat split; reflexivity. }
  clearbody s2. destruct Hs2 as (Hts2 & Hsy2 & Hl2).
  unfold synced in *. subst res.
  destruct Hres as [Hf | (rs & Er & Hrr)].
  - erewrite run_try_catch_step.
    2:{ unfold displayResults. rewrite Hf. reflexivity. }
    cbv beta. unfold run, try_catch, modify. simpl.
    rewrite Hts2, Hsy2, Hl2, Hts2.
    destruct (lookup_prop "results" ps) as [| | | | |[|? ?]|]; simpl in Hf; try discriminate;
      repeat split; reflexivity.
  - rewrite Er. destruct rs as [|r0 rs].
    + erewrite run_try_catch_step by reflexivity. cbv beta.
      unfold run, try_catch, modify. simpl.
      rewrite Hts2, Hsy2, Hl2, Hts2. repeat split; reflexivity.
    + destruct (render_results_ok _ Hrr) as (ritems & Eri & _). rewrite Eri.
      erewrite run_try_catch_step
        by exact (displayResults_ok (r0 :: rs) ritems s2 ltac:(discriminate) Eri).
      cbv beta. unfold run, try_catch, modify.
      cbn [snd set_button set_keyword_field set_results monitorTasks storage statusLog
           keywordField button resultsView].
      rewrite Hts2, Hsy2, Hl2, Hts2. repeat split; reflexivity.
Qed.

Lemma static_success_effects_witness :
  Static.issues_request form_plain = true
  /\ (run (Static.startMonitoring form_plain
             (Static.FetchResponse true 200 (Frontend.BodyJson (success_body "t1"))))
          fresh_app).(resultsView) = Some ResultsEmpty.
Proof.
  assert (Hi : Static.issues_request form_plain = true) by (vm_compute; reflexivity).
  split; [exact Hi|].
  pose proof (static_success_effects form_plain 200 fresh_app
       [("status", JStr "success"); ("summary", JStr "ok");
        ("timestamp", JNum 1700000000); ("task_id", JStr "t1"); ("results", JArr [])]
       Hi eq_refl) as H.
  cbv zeta in H.
  refine (proj2 (proj2 (proj2 (proj2 (proj2 (H _ _)))))).
  - solve_renders.
  - right. exists []. split; [reflexivity | constructor].
Defined.

End ExtraSuccess.


(** ** The task list view, deletes and the results panel *)
Section ExtraRender.
Import Js Ui Samples.

(** [updateMonitorList], when every task renders: an empty list shows the
    empty state; otherwise there is one row per task, in list order, each
    showing the task's [keyword] and its [sites] or the default text, and
    the rows carry the indices 0, 1, ..., n-1 that their delete buttons
    pass to [removeMonitor].  Nothing else changes. *)
Theorem updateMonitorList_renders (s : app) :
  Forall task_renders s.(monitorTasks) ->
  exists items,
    updateMonitorList s =
      (inr tt, set_view (match s.(monitorTasks) with
                         | [] => MonitorsEmpty
                         | _ => MonitorItems items
                         end) s)
    /\ Forall2 shows_task s.(monitorTasks) items
    /\ map item_index items = seq 0 (length s.(monitorTasks)).
Proof. apply updateMonitorList_rendered. Qed.

Lemma updateMonitorList_renders_witness :
  let s := mk_app [JObj [("keyword", JStr "Speedy 30"); ("sites", JNull)];
                   JObj [("keyword", JStr "iPhone 15 Pro Max");
                         ("sites", JArr [JStr "amazon.co.jp"])]]
             None MonitorsEmpty [] (false, "开始监控") "" None ApiUnknown [] in
  Forall task_renders s.(monitorTasks)
  /\ exists items, Forall2 shows_task s.(monitorTasks) items
                   /\ map item_index items = seq 0 (length s.(monitorTasks)).
Proof.
  cbv zeta.
  assert (HF : Forall task_renders
                 [JObj [("keyword", JStr "Speedy 30"); ("sites", JNull)];
                  JObj [("keyword", JStr "iPhone 15 Pro Max");
                        ("sites", JArr [JStr "amazon.co.jp"])]]).
  { solve_renders. }
  split; [exact HF|].
  destruct (updateMonitorList_renders
              (mk_app [JObj [("keyword", JStr "Speedy 30"); ("sites", JNull)];
                       JObj [("keyword", JStr "iPhone 15 Pro Max");
                             ("sites", JArr [JStr "amazon.co.jp"])]]
                 None MonitorsEmpty [] (false, "开始监控") "" None ApiUnknown []) HF)
    as (items & _ & H1 & H2).
  exists items. split; assumption.
Defined.

(** [updateMonitorList] throws (a TypeError) as soon as one task is
    [null] or [undefined] or has a truthy [sites] that is not an array; it
    then changes nothing, so the list keeps showing its previous rows. *)
Theorem updateMonitorList_throws (s : app) :
  Exists task_breaks s.(monitorTasks) -> updateMonitorList s = (inl type_error, s).
Proof. apply updateMonitorList_broken. Qed.

Lemma updateMonitorList_throws_witness :
  let s := mk_app [JObj [("keyword", JStr "Speedy 30")]; JNull]
             None MonitorsEmpty [] (false, "开始监控") "" None ApiUnknown [] in
  Exists task_breaks s.(monitorTasks) /\ updateMonitorList s = (inl type_error, s).
Proof.
  cbv zeta.
  assert (HE : Exists task_breaks [JObj [("keyword", JStr "Speedy 30")]; JNull]).
  { apply Exists_cons_tl, Exists_cons_hd. right. left. reflexivity. }
  split; [exact HE|].
  exact (updateMonitorList_throws
           (mk_app [JObj [("keyword", JStr "Speedy 30")]; JNull]
              None MonitorsEmpty [] (false, "开始监控") "" None ApiUnknown []) HE).
Defined.

(** [removeMonitor(i)] removes exactly one task when [i] is below the
    length (every negative index included, on a non-empty list) and none
    otherwise; it issues no request and leaves the messages, the button,
    the API indicator, the results panel and the keyword field alone. *)
Theorem removeMonitor_count (a : app) (i : Z) :
  let a' := run (removeMonitor i) a in
  length a'.(monitorTasks) =
    (if Z.ltb i (Z.of_nat (length a.(monitorTasks)))
     then length a.(monitorTasks) - 1 else length a.(monitorTasks))
  /\ a'.(sent) = a.(sent) /\ a'.(statusLog) = a.(statusLog) /\ a'.(button) = a.(button)
  /\ a'.(apiStatus) = a.(apiStatus) /\ a'.(resultsView) = a.(resultsView)
  /\ a'.(keywordField) = a.(keywordField).
Proof.
  destruct (removeMonitor_fields i a) as (Ht & Hrest). cbv zeta.
  rewrite Ht, splice1_length. split; [reflexivity | exact Hrest].
Qed.

(** After [removeMonitor], when the tasks rendered before, the remaining
    ones are shown again with fresh indices 0, ..., n-1, so every delete
    button addresses the task it shows. *)
Theorem removeMonitor_renumbers (a : app) (i : Z) :
  Forall task_renders a.(monitorTasks) ->
  let a' := run (removeMonitor i) a in
  exists items,
    a'.(monitorView) = (match a'.(monitorTasks) with
                        | [] => MonitorsEmpty
                        | _ => MonitorItems items
                        end)
    /\ Forall2 shows_task a'.(monitorTasks) items
    /\ map item_index items = seq 0 (length a'.(monitorTasks)).
Proof.
  intros HF. cbv zeta. unfold removeMonitor, run, bind, modify. cbv beta iota.
  set (s1 := save (set_tasks (splice1 (monitorTasks a) i) a)).
  assert (HF1 : Forall task_renders s1.(monitorTasks)).
  { subst s1. simpl. destruct (splice1_delete (monitorTasks a) i) as [n ->].
    by apply Forall_delete. }
  destruct (updateMonitorList_rendered s1 HF1) as (items & E & H1 & H2).
  rewrite E. exists items. simpl. split; [reflexivity | split; assumption].
Qed.

Lemma removeMonitor_renumbers_witness :
  let a := mk_app [JObj [("keyword", JStr "Speedy 30"); ("sites", JNull)];
                   JObj [("keyword", JStr "iPhone 15 Pro Max"); ("sites", JNull)]]
             None MonitorsEmpty [] (false, "开始监控") "" None ApiUnknown [] in
  Forall task_renders a.(monitorTasks)
  /\ exists items,
       (run (removeMonitor 0) a).(monitorView) = MonitorItems items
       /\ map item_index items = [0].
Proof.
  cbv zeta.
  assert (HF : Forall task_renders
                 [JObj [("keyword", JStr "Speedy 30"); ("sites", JNull)];
                  JObj [("keyword", JStr "iPhone 15 Pro Max"); ("sites", JNull)]]).
  { solve_renders. }
  split; [exact HF|].
  destruct (removeMonitor_renumbers
              (mk_app [JObj [("keyword", JStr "Speedy 30"); ("sites", JNull)];
                       JObj [("keyword", JStr "iPhone 15 Pro Max"); ("sites", JNull)]]
                 None MonitorsEmpty [] (false, "开始监控") "" None ApiUnknown []) 0 HF)
    as (items & H1 & _ & H2).
  exists items. split; [exact H1 | exact H2].
Defined.

(** [displayResults] shows the empty state, and changes nothing else, for
    any falsy [results] ([undefined], [null], [false], [0], [''])
    and for an empty array. *)
Theorem displayResults_empty (v : jsval) (s : app) :
  truthy v = false \/ v = JArr [] ->
  displayResults v s = (inr tt, set_results ResultsEmpty s).
Proof.
  intros [H | ->].
  - unfold displayResults. rewrite H. reflexivity.
  - reflexivity.
Qed.

Lemma displayResults_empty_witness :
  (truthy (JNum 0) = false \/ JNum 0 = JArr [])
  /\ displayResults (JNum 0) fresh_app = (inr tt, set_results ResultsEmpty fresh_app).
Proof.
  assert (H : truthy (JNum 0) = false \/ JNum 0 = JArr []) by (left; reflexivity).
  split; [exact H | exact (displayResults_empty (JNum 0) fresh_app H)].
Defined.

(** [displayResults] on a non-empty array of results that are not [null]
    or [undefined] and have a convertible [title] and [url]: one row per
    result, in order, linking to its [url] under its [title] or
    ['商品页面'], with the status its [availability] gives; nothing else
    changes. *)
Theorem displayResults_rows (rs : list jsval) (s : app) :
  rs <> [] -> Forall result_renders rs ->
  exists items,
    displayResults (JArr rs) s = (inr tt, set_results (ResultItems items) s)
    /\ Forall2 shows_result rs items /\ Forall2 shows_status rs items.
Proof.
  intros Hne HF. destruct (render_results_ok rs HF) as (items & E & H1).
  exists items. split; [by apply displayResults_ok|].
  split; [exact H1 | by apply render_results_status].
Qed.

Lemma displayResults_rows_witness :
  let rs := [JObj [("title", JStr ""); ("url", JStr "https://example.com/p/1")]] in
  rs <> [] /\ Forall result_renders rs
  /\ exists items, Forall2 shows_result rs items.
Proof.
  cbv zeta.
  assert (Hne : [JObj [("title", JStr ""); ("url", JStr "https://example.com/p/1")]] <> [])
    by discriminate.
  assert (HF : Forall result_renders
                 [JObj [("title", JStr ""); ("url", JStr "https://example.com/p/1")]])
    by solve_renders.
  split; [exact Hne|]. split; [exact HF|].
  destruct (displayResults_rows _ fresh_app Hne HF) as (items & _ & H & _).
  exists items. exact H.
Defined.

(** [displayResults] on an array with a [null] or [undefined] entry
    throws (a TypeError) and leaves the results panel as it was: no row
    is shown, not even the valid ones. *)
Theorem displayResults_throws (rs : list jsval) (s : app) :
  Exists (fun r => r = JUndef \/ r = JNull) rs ->
  displayResults (JArr rs) s = (inl type_error, s).
Proof.
  intros HE. pose proof (render_results_breaks rs HE) as E.
  destruct rs as [|r rs']; [inversion HE|].
  unfold displayResults, prop, bind, ret, throw. simpl.
  simpl in E. by rewrite E.
Qed.

Lemma displayResults_throws_witness :
  Exists (fun r => r = JUndef \/ r = JNull) [result_null_verdict; JNull]
  /\ displayResults (JArr [result_null_verdict; JNull]) fresh_app = (inl type_error, fresh_app).
Proof.
  assert (HE : Exists (fun r => r = JUndef \/ r = JNull) [result_null_verdict; JNull])
    by (apply Exists_cons_tl, Exists_cons_hd; right; reflexivity).
  split; [exact HE | exact (displayResults_throws _ fresh_app HE)].
Defined.

End ExtraRender.

(** ** [apiRequest]'s timer *)
Section ExtraTimer.
Import Js Ui Frontend.

(** Unless [ok] response headers arrive before the timer, [apiRequest]
    settles, and no later than [timeout || API_TIMEOUT || 30000] ms. *)
Theorem apiRequest_deadline (timeout api_timeout : option N) (net : fetch_timing) :
  (forall t st txt b, net = HeadersAt t true st txt b ->
     (request_timeout timeout api_timeout <= t)%N) ->
  exists t' res, api_request timeout api_timeout net = SettledAt t' res
    /\ (t' <= request_timeout timeout api_timeout)%N.
Proof.
  intros H. unfold api_request.
  destruct net as [t e|t ok st txt b|].
  - destruct (N.ltb_spec t (request_timeout timeout api_timeout)); eauto with lia.
  - destruct (N.ltb_spec t (request_timeout timeout api_timeout)) as [Hl|Hl];
      [|eauto with lia].
    destruct ok; [|eauto with lia].
    specialize (H t st txt b eq_refl). lia.
  - eauto with lia.
Qed.

Lemma apiRequest_deadline_witness :
  (forall t st txt b,
     FetchFailsAt 50 (mk_error "TypeError" "Failed to fetch") = HeadersAt t true st txt b ->
     (request_timeout None None <= t)%N)
  /\ exists t' res,
       api_request None None (FetchFailsAt 50 (mk_error "TypeError" "Failed to fetch"))
       = SettledAt t' res /\ (t' <= request_timeout None None)%N.
Proof.
  assert (H : forall t st txt b,
            FetchFailsAt 50 (mk_error "TypeError" "Failed to fetch") = HeadersAt t true st txt b ->
            (request_timeout None None <= t)%N) by discriminate.
  split; [exact H | exact (apiRequest_deadline None None _ H)].
Defined.

(** When nothing reaches the page before the timer (no rejection, no
    headers), [apiRequest] rejects at exactly the timer's deadline with
    [new Error('请求超时')]. *)
Theorem apiRequest_times_out (timeout api_timeout : option N) (net : fetch_timing) :
  let T := request_timeout timeout api_timeout in
  match net with
  | FetchFailsAt t _ | HeadersAt t _ _ _ _ => (T <= t)%N
  | NoAnswer => True
  end ->
  api_request timeout api_timeout net = SettledAt T (ApiRejected timeout_error).
Proof.
  cbv zeta. intros H. unfold api_request.
  destruct net as [t e|t ok st txt b|]; [| |reflexivity];
    replace (N.ltb t _) with false by (symmetry; apply N.ltb_ge; exact H); reflexivity.
Qed.

Lemma apiRequest_times_out_witness :
  (request_timeout (Some 5000%N) None <= 5000%N)%N
  /\ api_request (Some 5000%N) None (HeadersAt 5000%N true 200 "OK" BodyNever)
     = SettledAt 5000%N (ApiRejected timeout_error).
Proof.
  assert (H : (request_timeout (Some 5000%N) None <= 5000%N)%N) by (vm_compute; discriminate).
  split; [exact H | exact (apiRequest_times_out (Some 5000%N) None
                             (HeadersAt 5000%N true 200 "OK" BodyNever) H)].
Defined.

End ExtraTimer.

(** ** A create on a list that does not render *)
Section ExtraBroken.
Import Js Ui Samples.

(** In [app.js], when a stored task is [null] or [undefined], or has a
    truthy [sites] that is not an array, a successful create still adds
    and saves the new task, but the [updateMonitorList()] call then
    throws: the success message is followed by an error message,
    the keyword field is not cleared and the results are not shown. *)
Theorem frontend_broken_list_create (f : form) (r : Frontend.responses) (a : app)
    (ps : list (string * jsval)) :
  Frontend.issues_request f r a = true ->
  r.(Frontend.add_response) = Frontend.ApiResolved (JObj ps) ->
  is_str (lookup_prop "status" ps) "success" = true ->
  Exists task_breaks a.(monitorTasks) ->
  let task := Frontend.new_task (trim f.(keyword_input)) (trim f.(email_input))
                f.(checked_sites) (lookup_prop "timestamp" ps) (lookup_prop "task_id" ps)
                r.(Frontend.now) in
  let a' := run (Frontend.startMonitoring f r) a in
  a'.(monitorTasks) = task :: a.(monitorTasks) /\ synced a'
  /\ a'.(keywordField) = a.(keywordField) /\ a'.(resultsView) = a.(resultsView)
  /\ a'.(button) = (false, "开始监控")
  /\ exists m, a'.(statusLog) = a.(statusLog) ++
       [(loading_message, StLoading);
        (js_or (lookup_prop "summary" ps) (JStr "监控任务已添加"), StSuccess);
        (m, StError)].
Proof.
  intros Hi Hr Hst HE task. cbv zeta.
  rewrite (frontend_start_exact f r a Hi), Hr. unfold Frontend.submit.
  do 3 (erewrite run_try_catch_step by reflexivity; cbv beta).
  rewrite Hst.
  do 6 (erewrite run_try_catch_step by reflexivity; cbv beta).
  destruct (after_check_fields a) as (Ht1 & Hs1 & Hl1 & Hr1 & Hk1).
  erewrite run_try_catch_throw
    by (apply updateMonitorList_broken; simpl; rewrite Ht1; by apply Exists_cons_tl).
  unfold Frontend.on_error, synced, run, showStatus, modify. simpl.
  rewrite Ht1, Hl1, Hr1, Hk1, <- !app_assoc.
  repeat split; try reflexivity. eexists. reflexivity.
Qed.

Lemma frontend_broken_list_create_witness :
  let a := mk_app [JNull] None MonitorsEmpty [] (false, "开始监控") "" None ApiUnknown [] in
  Frontend.issues_request form_plain (created_ok "t1") a = true
  /\ Exists task_breaks a.(monitorTasks)
  /\ length (run (Frontend.startMonitoring form_plain (created_ok "t1")) a).(monitorTasks) = 2.
Proof.
  cbv zeta.
  assert (Hi : Frontend.issues_request form_plain (created_ok "t1")
                 (mk_app [JNull] None MonitorsEmpty [] (false, "开始监控") "" None
                    ApiUnknown []) = true) by (vm_compute; reflexivity).
  assert (HE : Exists task_breaks [JNull]) by (apply Exists_cons_hd; right; left; reflexivity).
  split; [exact Hi|]. split; [exact HE|].
  pose proof (frontend_broken_list_create form_plain (created_ok "t1")
       (mk_app [JNull] None MonitorsEmpty [] (false, "开始监控") "" None ApiUnknown [])
       [("status", JStr "success"); ("summary", JStr "ok");
        ("timestamp", JNum 1700000000); ("task_id", JStr "t1"); ("results", JArr [])]
       Hi eq_refl eq_refl HE) as H.
  cbv zeta in H. rewrite (proj1 H). reflexivity.
Defined.

(** The same in [main.js], when a stored task is [null] or [undefined],
    or has a truthy [sites] that is not an array: the new task is added
    and saved, the raw
    [summary] is followed by an error message, the keyword field is not
    cleared and the results panel is not updated. *)
Theorem static_broken_list_create (f : form) (st : Z) (a : app)
    (ps : list (string * jsval)) :
  Static.issues_request f = true ->
  is_str (lookup_prop "status" ps) "success" = true ->
  Exists task_breaks a.(monitorTasks) ->
  let task := Static.new_task (trim f.(keyword_input)) (trim f.(email_input))
                f.(checked_sites) (lookup_prop "timestamp" ps) (lookup_prop "results" ps) in
  let a' := run (Static.startMonitoring f
                   (Static.FetchResponse true st (Frontend.BodyJson (JObj ps)))) a in
  a'.(monitorTasks) = task :: a.(monitorTasks) /\ synced a'
  /\ a'.(keywordField) = a.(keywordField) /\ a'.(resultsView) = a.(resultsView)
  /\ a'.(button) = (false, "开始监控")
  /\ exists m, a'.(statusLog) = a.(statusLog) ++
       [(loading_message, StLoading); (lookup_prop "summary" ps, StSuccess); (m, StError)].
Proof.
  intros Hi Hst HE task. cbv zeta.
  rewrite (static_start_shape f _ a Hi). unfold Static.submit.
  erewrite run_try_catch_step by reflexivity. cbv beta iota. simpl negb. cbv iota.
  do 2 (erewrite run_try_catch_step by reflexivity; cbv beta).
  rewrite Hst.
  do 6 (erewrite run_try_catch_step by reflexivity; cbv beta).
  erewrite run_try_catch_throw
    by (apply updateMonitorList_broken; simpl; by apply Exists_cons_tl).
  unfold Static.on_error, synced, run, showStatus, modify. simpl.
  rewrite <- !app_assoc.
  repeat split; try reflexivity. eexists. reflexivity.
Qed.

Lemma static_broken_list_create_witness :
  let a := mk_app [JNull] None MonitorsEmpty [] (false, "开始监控") "" None ApiUnknown [] in
  Static.issues_request form_plain = true
  /\ Exists task_breaks a.(monitorTasks)
  /\ length (run (Static.startMonitoring form_plain
                    (Static.FetchResponse true 200 (Frontend.BodyJson (success_body "t1"))))
               a).(monitorTasks) = 2.
Proof.
  cbv zeta.
  assert (Hi : Static.issues_request form_plain = true) by (vm_compute; reflexivity).
  assert (HE : Exists task_breaks [JNull]) by (apply Exists_cons_hd; right; left; reflexivity).
  split; [exact Hi|]. split; [exact HE|].
  pose proof (static_broken_list_create form_plain 200
       (mk_app [JNull] None MonitorsEmpty [] (false, "开始监控") "" None ApiUnknown [])
       [("status", JStr "success"); ("summary", JStr "ok");
        ("timestamp", JNum 1700000000); ("task_id", JStr "t1"); ("results", JArr [])]
       Hi eq_refl HE) as H.
  cbv zeta in H. unfold success_body. rewrite (proj1 H). reflexivity.
Defined.

End ExtraBroken.
